(** * gin-jwks: a JWKS endpoint for gin, verified against its specification

    The development embeds the Go package [gin_jwks] (configuration
    builder [ConfigBuilder] with its two facets, [Build], the handler
    [Jkws] and the helper [EncodeToString]) together with the part of its
    dependencies the package relies on: Go's [encoding/base64] and
    [encoding/json], the [jwk.Key] interface of lestrrat-go/jwx, and
    gin's [Context.JSON].

    Layout: the embedding comes first (libraries, then the package), the
    lemmas and theorems follow. *)

From Stdlib Require Import ZArith List Bool Lia.
From Stdlib.Strings Require Import String Ascii Byte.
From stdpp Require Import base option gmap.

Import ListNotations.
Set Warnings "-register-all".
Local Open Scope Z_scope.
Local Open Scope string_scope.
Local Open Scope list_scope.

(* ===================================================================== *)
(** * Go values                                                           *)
(* ===================================================================== *)

(** A Go [[]byte] is a list of bytes, a Go [string] a Rocq string.  Go's
    [error] values carry a message; the package builds all of its own
    with [fmt.Errorf], so an error is modelled by its message. *)

Abbreviation bytes := (list byte).
Definition error : Type := string.
Bind Scope string_scope with error.

(** [uint(b)] and [byte(v)]: widening a byte and truncating to 8 bits. *)
Definition uint_of_byte (b : byte) : Z := Z.of_N (Byte.to_N b).

Definition byte_of_uint (v : Z) : byte :=
  match Byte.of_N (Z.to_N (Z.land v 255)) with
  | Some b => b
  | None => x00
  end.

(** The newline that ends two of the package's message formats. *)
Definition LF : string := String (ascii_of_nat 10) EmptyString.

(** [fmt.Errorf(format, err)] for the one-verb formats the package uses:
    the verb sits at the end of [prefix], [suffix] is what follows it. *)
Definition Errorf (prefix : string) (err : error) (suffix : string) : error :=
  prefix ++ err ++ suffix.

(* ===================================================================== *)
(** * encoding/base64: RawURLEncoding                                     *)
(* ===================================================================== *)

Module base64.

(** The URL-safe alphabet of RFC 4648, section 5. *)
Definition encodeURL : string :=
  "ABCDEFGHIJKLMNOPQRSTUVWXYZabcdefghijklmnopqrstuvwxyz0123456789-_".

(** [enc.encode[i]] *)
Definition encode (i : Z) : ascii :=
  match String.get (Z.to_nat i) encodeURL with
  | Some c => c
  | None => zero
  end.

(** [enc.decodeMap[c]], with [None] for the 0xFF entries. *)
Fixpoint index_from (i : Z) (c : ascii) (s : string) : option Z :=
  match s with
  | EmptyString => None
  | String c' s' => if Ascii.eqb c c' then Some i else index_from (i + 1) c s'
  end.

Definition decodeMap (c : ascii) : option Z := index_from 0 c encodeURL.

(** [Encoding.Encode] with [padChar = NoPadding]: whole 3-byte groups give
    four characters, a remainder of two bytes gives three characters and
    a remainder of one byte gives two. *)
Fixpoint Encode (src : bytes) : string :=
  match src with
  | [] => EmptyString
  | [s0] =>
      let val := Z.shiftl (uint_of_byte s0) 16 in
      String (encode (Z.land (Z.shiftr val 18) 63))
     (String (encode (Z.land (Z.shiftr val 12) 63)) EmptyString)
  | [s0; s1] =>
      let val := Z.lor (Z.shiftl (uint_of_byte s0) 16)
                       (Z.shiftl (uint_of_byte s1) 8) in
      String (encode (Z.land (Z.shiftr val 18) 63))
     (String (encode (Z.land (Z.shiftr val 12) 63))
     (String (encode (Z.land (Z.shiftr val 6) 63)) EmptyString))
  | s0 :: s1 :: s2 :: rest =>
      let val := Z.lor (Z.lor (Z.shiftl (uint_of_byte s0) 16)
                              (Z.shiftl (uint_of_byte s1) 8))
                       (uint_of_byte s2) in
      String (encode (Z.land (Z.shiftr val 18) 63))
     (String (encode (Z.land (Z.shiftr val 12) 63))
     (String (encode (Z.land (Z.shiftr val 6) 63))
     (String (encode (Z.land val 63)) (Encode rest))))
  end.

(** [base64.RawURLEncoding.EncodeToString] *)
Definition RawURLEncoding_EncodeToString (src : bytes) : string := Encode src.

(** The decoder skips carriage returns and line feeds. *)
Definition is_newline (c : ascii) : bool :=
  Ascii.eqb c (ascii_of_nat 10) || Ascii.eqb c (ascii_of_nat 13).

(** The 6-bit values of the input characters; [None] on a character
    outside the alphabet (Go's [CorruptInputError]). *)
Fixpoint sextets_of (cs : list ascii) : option (list Z) :=
  match cs with
  | [] => Some []
  | c :: cs' =>
      match decodeMap c, sextets_of cs' with
      | Some v, Some vs => Some (v :: vs)
      | _, _ => None
      end
  end.

(** [decodeQuantum], repeated: four values give three bytes; at the end of
    the input three values give two bytes, two give one, and a single
    left-over value is corrupt input. *)
Fixpoint decodeQuanta (d : list Z) : option bytes :=
  match d with
  | [] => Some []
  | [_] => None
  | [d0; d1] =>
      let val := Z.lor (Z.shiftl d0 18) (Z.shiftl d1 12) in
      Some [byte_of_uint (Z.shiftr val 16)]
  | [d0; d1; d2] =>
      let val := Z.lor (Z.lor (Z.shiftl d0 18) (Z.shiftl d1 12)) (Z.shiftl d2 6) in
      Some [byte_of_uint (Z.shiftr val 16); byte_of_uint (Z.shiftr val 8)]
  | d0 :: d1 :: d2 :: d3 :: rest =>
      let val := Z.lor (Z.lor (Z.lor (Z.shiftl d0 18) (Z.shiftl d1 12))
                              (Z.shiftl d2 6)) d3 in
      match decodeQuanta rest with
      | Some out =>
          Some (byte_of_uint (Z.shiftr val 16) :: byte_of_uint (Z.shiftr val 8)
                :: byte_of_uint val :: out)
      | None => None
      end
  end.

Definition keep (c : ascii) : bool := negb (is_newline c).

(** [base64.RawURLEncoding.DecodeString] *)
Definition RawURLEncoding_DecodeString (s : string) : option bytes :=
  match sextets_of (List.filter keep (list_ascii_of_string s)) with
  | Some d => decodeQuanta d
  | None => None
  end.

(** The property of the alphabet the decoder relies on, at index [n]:
    the character decodes to [n] and is not a line break. *)
Definition alphabet_ok (n : nat) : bool :=
  match decodeMap (encode (Z.of_nat n)) with
  | Some j => (j =? Z.of_nat n)%Z && keep (encode (Z.of_nat n))
  | None => false
  end.

End base64.

(* ===================================================================== *)
(** * math/big, crypto/rsa                                                *)
(* ===================================================================== *)

Module big.

(** [Bytes] of a [big.Int]: the big-endian bytes of the absolute value, without
    leading zero bytes (so zero has no bytes at all). *)
Fixpoint bytes_of_positive (fuel : nat) (p : positive) (acc : bytes) : bytes :=
  let acc' := byte_of_uint (Z.pos p) :: acc in
  match fuel with
  | O => acc'
  | S fuel' =>
      match Z.shiftr (Z.pos p) 8 with
      | Z.pos q => bytes_of_positive fuel' q acc'
      | _ => acc'
      end
  end.

Definition Int_Bytes (x : Z) : bytes :=
  match Z.abs x with
  | Z.pos p => bytes_of_positive (Pos.size_nat p) p []
  | _ => []
  end.

(** [SetBytes]: the number a big-endian byte sequence denotes, read one
    byte at a time. *)
Definition push (acc : Z) (b : byte) : Z := Z.lor (Z.shiftl acc 8) (uint_of_byte b).

Definition Int_SetBytes (buf : bytes) : Z := fold_left push buf 0.

End big.

Module rsa.

(** [rsa.PrivateKey]: the modulus and the public exponent.  The private
    exponent, the primes and the precomputed values are never read by
    this package and are left out. *)
Record PrivateKey := { N : Z; E : Z }.

End rsa.

(* ===================================================================== *)
(** * lestrrat-go/jwx: jwa and jwk                                        *)
(* ===================================================================== *)

Module jwa.

Inductive KeyType := EC | OKP | OctetSeq | RSA.

Definition KeyType_String (t : KeyType) : string :=
  match t with
  | EC => "EC"
  | OKP => "OKP"
  | OctetSeq => "oct"
  | RSA => "RSA"
  end.

Inductive SignatureAlgorithm := RS256.

Definition SignatureAlgorithm_String (a : SignatureAlgorithm) : string :=
  match a with RS256 => "RS256" end.

End jwa.

Module jwk.

(** The dynamic type of a [jwk.Key] with the parameters this package
    reads: modulus and public exponent of an RSA key.  Keys that are not
    RSA keys (elliptic-curve, OKP and symmetric keys) have neither an
    ["e"] nor an ["n"] field. *)
Inductive Material :=
| rsaPrivateKey (n e : bytes)
| rsaPublicKey (n e : bytes)
| otherKey (kty : jwa.KeyType) (private : bool).

(** A key object: its material and the two standard fields the package
    sets; an unset field is [None] (a nil [*string] in jwx). *)
Record Key := mkKey {
  material : Material;
  keyID : option string;
  keyUsage : option string
}.

(** A Go [interface{}] value, as far as [Set] and [Get] exchange them. *)
Inductive any :=
| any_string (s : string)
| any_bytes (b : bytes)
| any_KeyType (t : jwa.KeyType).

(** The field names the package passes to [Set]. *)
Inductive Field := KeyIDKey | KeyUsageKey.

Definition Field_name (f : Field) : string :=
  match f with KeyIDKey => "kid" | KeyUsageKey => "use" end.

(** [key.Set(name, value)], named [Key_Set] here: both fields accept every string, the empty
    one included, and reject a value of another type.  The key is updated
    in place in Go; here the updated key is returned with the error. *)
Definition Key_Set (k : Key) (name : Field) (value : any) : Key * option error :=
  match name, value with
  | KeyIDKey, any_string v =>
      (mkKey (material k) (Some v) (keyUsage k), None)
  | KeyIDKey, _ => (k, Some "invalid value for kid key")
  | KeyUsageKey, any_string v =>
      (mkKey (material k) (keyID k) (Some v), None)
  | KeyUsageKey, _ => (k, Some "invalid key usage type")
  end.

(** [key.Get(name)] for the fields of the model; [None] stands for the
    pair [(nil, false)]. *)
Definition Get (k : Key) (name : string) : option any :=
  if String.eqb name "kty" then
    Some (any_KeyType match material k with
                      | rsaPrivateKey _ _ | rsaPublicKey _ _ => jwa.RSA
                      | otherKey t _ => t
                      end)
  else if String.eqb name "kid" then option_map any_string (keyID k)
  else if String.eqb name "use" then option_map any_string (keyUsage k)
  else if String.eqb name "e" then
    match material k with
    | rsaPrivateKey _ e | rsaPublicKey _ e => Some (any_bytes e)
    | otherKey _ _ => None
    end
  else if String.eqb name "n" then
    match material k with
    | rsaPrivateKey n _ | rsaPublicKey n _ => Some (any_bytes n)
    | otherKey _ _ => None
    end
  else None.

Definition KeyType (k : Key) : jwa.KeyType :=
  match material k with
  | rsaPrivateKey _ _ | rsaPublicKey _ _ => jwa.RSA
  | otherKey t _ => t
  end.

(** [key.KeyID()] and [key.KeyUsage()]: the empty string when unset. *)
Definition KeyID (k : Key) : string :=
  match keyID k with Some v => v | None => EmptyString end.

Definition KeyUsage (k : Key) : string :=
  match keyUsage k with Some v => v | None => EmptyString end.

(** [key.PublicKey()]: a new key with the public parameters and the
    standard fields of [k]; the private parameters are dropped. *)
Definition PublicKey (k : Key) : option Key * option error :=
  match material k with
  | rsaPrivateKey n e | rsaPublicKey n e =>
      (Some (mkKey (rsaPublicKey n e) (keyID k) (keyUsage k)), None)
  | otherKey t _ =>
      (Some (mkKey (otherKey t false) (keyID k) (keyUsage k)), None)
  end.

(** The type assertion [key.(jwk.RSAPrivateKey)]. *)
Definition is_RSAPrivateKey (k : Key) : bool :=
  match material k with
  | rsaPrivateKey _ _ => true
  | _ => false
  end.

(** What [%T] prints for a key. *)
Definition TypeName (k : Key) : string :=
  match material k with
  | rsaPrivateKey _ _ => "*jwk.rsaPrivateKey"
  | rsaPublicKey _ _ => "*jwk.rsaPublicKey"
  | otherKey jwa.EC true => "*jwk.ecdsaPrivateKey"
  | otherKey jwa.EC false => "*jwk.ecdsaPublicKey"
  | otherKey jwa.OKP true => "*jwk.okpPrivateKey"
  | otherKey jwa.OKP false => "*jwk.okpPublicKey"
  | otherKey _ _ => "*jwk.symmetricKey"
  end.

(** [jwk.FromRaw] on an [rsa.PrivateKey]: an RSA private key whose
    parameters are the big-endian bytes of the numbers. *)
Definition FromRaw (raw : rsa.PrivateKey) : Key + error :=
  inl (mkKey (rsaPrivateKey (big.Int_Bytes (rsa.N raw))
                            (big.Int_Bytes (rsa.E raw)))
             None None).

End jwk.

(* ===================================================================== *)
(** * encoding/json and gin                                               *)
(* ===================================================================== *)

Module json.

(** The JSON values the handler renders. *)
Inductive Value :=
| Str (s : string)
| Arr (items : list Value)
| Obj (fields : list (string * Value)).

Definition quote : string := String "034"%char EmptyString.

Definition hex : string := "0123456789abcdef".

Definition hex_digit (n : nat) : string :=
  match String.get n hex with
  | Some c => String c EmptyString
  | None => EmptyString
  end.

(** One ASCII byte of a string as [encoding/json] writes it, with HTML
    escaping on as in [json.Marshal]: the quote and the backslash are
    escaped with a backslash; backspace, form feed, line feed, carriage
    return and tab have their short forms (Go 1.22 and later; earlier
    versions write backspace and form feed as [\u0008] and [\u000c]);
    the other control characters and [<], [>], [&] are written as
    [\u00XX]; every other byte below 0x80 is copied. *)
Definition escape (c : ascii) : string :=
  let n := nat_of_ascii c in
  if Ascii.eqb c "034" then String "\" quote
  else if Ascii.eqb c "\" then "\\"
  else if Ascii.eqb c "008" then "\b"
  else if Ascii.eqb c "012" then "\f"
  else if Ascii.eqb c "010" then "\n"
  else if Ascii.eqb c "013" then "\r"
  else if Ascii.eqb c "009" then "\t"
  else if (n <? 32)%nat || Ascii.eqb c "<" || Ascii.eqb c ">" || Ascii.eqb c "&"
  then "\u00" ++ hex_digit (n / 16) ++ hex_digit (n mod 16)
  else String c EmptyString.

(** [utf8.DecodeRuneInString], as far as the encoder needs it.  For the
    first byte of a multi-byte sequence: the length of the sequence and
    the range its second byte must lie in; [None] for a byte that cannot
    start a sequence. *)
Definition lead (c : ascii) : option (nat * nat * nat) :=
  let n := nat_of_ascii c in
  (if (194 <=? n) && (n <=? 223) then Some (2, 128, 191)
   else if n =? 224 then Some (3, 160, 191)
   else if n =? 237 then Some (3, 128, 159)
   else if (225 <=? n) && (n <=? 239) then Some (3, 128, 191)
   else if n =? 240 then Some (4, 144, 191)
   else if n =? 244 then Some (4, 128, 143)
   else if (241 <=? n) && (n <=? 243) then Some (4, 128, 191)
   else None)%nat.

Definition between (lo hi : nat) (c : ascii) : bool :=
  ((lo <=? nat_of_ascii c) && (nat_of_ascii c <=? hi))%nat.

(** What stands for a byte that is not part of valid UTF-8. *)
Definition replacement : string := "\ufffd".

(** The three bytes of U+2028 and U+2029 are E2 80 A8 and E2 80 A9. *)
Definition line_separator (c0 c1 c2 : ascii) : option string :=
  if Ascii.eqb c0 "226" && Ascii.eqb c1 "128" then
    if Ascii.eqb c2 "168" then Some "\u2028"
    else if Ascii.eqb c2 "169" then Some "\u2029"
    else None
  else None.

(** The bytes of a string between its quotes: ASCII bytes go through
    [escape]; a valid multi-byte sequence is copied, except U+2028 and
    U+2029, which are written as escapes; a byte that does not start a
    valid sequence is replaced by [\ufffd] and the scan goes on with the
    byte after it. *)
Fixpoint escape_all (s : string) : string :=
  match s with
  | EmptyString => EmptyString
  | String c0 s1 =>
      if (nat_of_ascii c0 <? 128)%nat then (escape c0 ++ escape_all s1)%string
      else
        let invalid := (replacement ++ escape_all s1)%string in
        match lead c0 with
        | None => invalid
        | Some (size, lo, hi) =>
            match s1 with
            | EmptyString => invalid
            | String c1 s2 =>
                if negb (between lo hi c1) then invalid
                else if (size =? 2)%nat then String c0 (String c1 (escape_all s2))
                else
                  match s2 with
                  | EmptyString => invalid
                  | String c2 s3 =>
                      if negb (between 128 191 c2) then invalid
                      else if (size =? 3)%nat then
                        match line_separator c0 c1 c2 with
                        | Some esc => (esc ++ escape_all s3)%string
                        | None => String c0 (String c1 (String c2 (escape_all s3)))
                        end
                      else
                        match s3 with
                        | EmptyString => invalid
                        | String c3 s4 =>
                            if negb (between 128 191 c3) then invalid
                            else String c0 (String c1 (String c2 (String c3
                                   (escape_all s4))))
                        end
                  end
            end
        end
  end.

Definition encode_string (s : string) : string :=
  quote ++ escape_all s ++ quote.

Definition commas (parts : list string) : string :=
  String.concat "," parts.

(** [json.Marshal]: compact output, no trailing newline. *)
Fixpoint Marshal (v : Value) : string :=
  match v with
  | Str s => encode_string s
  | Arr items => "[" ++ commas (List.map Marshal items) ++ "]"
  | Obj fields =>
      "{" ++ commas (List.map (fun kv => (encode_string (fst kv) ++ ":" ++ Marshal (snd kv))%string)
                              fields) ++ "}"
  end.

End json.

Module gin.

Record Request := { Method : string; Path : string }.

(** What a handler has rendered: status code, content type and body. *)
Record Response := {
  Status : Z;
  ContentType : string;
  Body : string
}.

(** [gin.Context]: the request and the response writer, which holds the
    response once one was rendered. *)
Record Context := mkContext {
  request : Request;
  Writer : option Response
}.

(** [gin.H] is a map from strings to values; it is marshalled with its
    keys in sorted order, so it is kept as a list of fields. *)
Abbreviation H := (list (string * json.Value)).

(** [c.JSON(code, obj)]: renders [obj] as JSON with the given status. *)
Definition JSON (c : Context) (code : Z) (obj : H) : Context :=
  mkContext (request c)
            (Some {| Status := code;
                     ContentType := "application/json; charset=utf-8";
                     Body := json.Marshal (json.Obj obj) |}).

End gin.

(* ===================================================================== *)
(** * Package gin_jwks: data                                              *)
(* ===================================================================== *)

Definition KeyUsageAsSignature : string := "sig".

(** Structure used when the user generates a new private key. *)
Record NewKeyOptions := mkNewKeyOptions {
  new_keyId : string;
  bits : Z
}.

(** Structure used when the user imports an existing private key. *)
Record ImportKeyOptions := mkImportKeyOptions {
  import_keyId : string;
  privateKeyPemPath : string
}.

(** The interface [Options] and its two implementations. *)
Class Options (A : Type) := { KeyId : A -> string }.

#[global] Instance NewKeyOptions_Options : Options NewKeyOptions :=
  {| KeyId := new_keyId |}.

#[global] Instance ImportKeyOptions_Options : Options ImportKeyOptions :=
  {| KeyId := import_keyId |}.

(** A value of interface type [Options]: one of the implementations. *)
Inductive OptionsValue :=
| NewOpts (o : NewKeyOptions)
| ImportOpts (o : ImportKeyOptions).

#[global] Instance OptionsValue_Options : Options OptionsValue :=
  {| KeyId := fun v => match v with
                       | NewOpts o => KeyId o
                       | ImportOpts o => KeyId o
                       end |}.

(** Addresses of heap objects; a Go pointer is [None] when nil. *)
Abbreviation loc := positive.
Abbreviation pointer := (option loc).

(** [Config]: [key] points to the variable that holds the key; the two
    option structures are owned by the configuration and are kept in
    place, [None] standing for a nil pointer. *)
Record Config := mkConfig {
  key : pointer;
  newPkOpts : option NewKeyOptions;
  importPkOpts : option ImportKeyOptions
}.

(** The builder and its two facets.  Each facet embeds a copy of the
    builder, hence of the pointer to the one shared [Config]. *)
Record ConfigBuilder := mkConfigBuilder { config : pointer }.

Record ConfigNewKeyBuilder := mkConfigNewKeyBuilder {
  new_ConfigBuilder : ConfigBuilder
}.

Record ConfigImportKeyBuilder := mkConfigImportKeyBuilder {
  import_ConfigBuilder : ConfigBuilder
}.

(** The JWKS entry, see RFC 7518, section 6.3.1. *)
Record JkwsResponse := mkJkwsResponse {
  KeyTypeKey : string;
  AlgorithmKey : string;
  PubKeyExponentKey : string;
  PubKeyModulusKey : string;
  KeyUsageKey : string;
  KeyIDKey : string
}.

(** How [encoding/json] writes a [JkwsResponse]: the fields in the order
    of their declaration, under the names of their [json] tags. *)
Definition JkwsResponse_json (r : JkwsResponse) : json.Value :=
  json.Obj [("kty", json.Str (KeyTypeKey r));
            ("alg", json.Str (AlgorithmKey r));
            ("e", json.Str (PubKeyExponentKey r));
            ("n", json.Str (PubKeyModulusKey r));
            ("use", json.Str (KeyUsageKey r));
            ("kid", json.Str (KeyIDKey r))].

(* ===================================================================== *)
(** * The heap and the monad of Go computations                           *)
(* ===================================================================== *)

(** The objects that are shared through pointers: configurations (between
    a builder, its facets and the caller of [Build]) and resolved keys
    (between a configuration and the handlers that copied it). *)
Record Heap := mkHeap {
  configs : gmap loc Config;
  keys : gmap loc jwk.Key
}.

(** A computation either ends with a value and a heap or panics. *)
Inductive Outcome (A : Type) :=
| Done (a : A) (h : Heap)
| Panic (msg : string).
Arguments Done {A} a h.
Arguments Panic {A} msg.

Definition M (A : Type) : Type := Heap -> Outcome A.

#[global] Instance M_ret : MRet M := fun A a h => Done a h.

#[global] Instance M_bind : MBind M := fun A B f m h =>
  match m h with
  | Done a h' => f a h'
  | Panic msg => Panic msg
  end.

Definition panic {A} (msg : string) : M A := fun _ => Panic msg.

Definition nil_dereference : string :=
  "runtime error: invalid memory address or nil pointer dereference".

(** [*p] for a pointer to a [Config]. *)
Definition load_config (p : pointer) : M Config := fun h =>
  match p with
  | Some l =>
      match configs h !! l with
      | Some c => Done c h
      | None => Panic nil_dereference
      end
  | None => Panic nil_dereference
  end.

(** [*p = c] *)
Definition store_config (p : pointer) (c : Config) : M unit := fun h =>
  match p with
  | Some l =>
      match configs h !! l with
      | Some _ => Done tt (mkHeap (<[l := c]> (configs h)) (keys h))
      | None => Panic nil_dereference
      end
  | None => Panic nil_dereference
  end.

(** [&Config{...}] *)
Definition new_config (c : Config) : M pointer := fun h =>
  let l := fresh (dom (configs h)) in
  Done (Some l) (mkHeap (<[l := c]> (configs h)) (keys h)).

(** [&key] for a local variable [key] that escapes. *)
Definition new_key (k : jwk.Key) : M pointer := fun h =>
  let l := fresh (dom (keys h)) in
  Done (Some l) (mkHeap (configs h) (<[l := k]> (keys h))).

(** [*p] for a pointer to a key. *)
Definition load_key (p : pointer) : M jwk.Key := fun h =>
  match p with
  | Some l =>
      match keys h !! l with
      | Some k => Done k h
      | None => Panic nil_dereference
      end
  | None => Panic nil_dereference
  end.

(* ===================================================================== *)
(** * The environment of [Build]                                          *)
(* ===================================================================== *)

(** The file system, the random source and the PEM parser: what they
    answer is outside the package.  Each call is taken to return, with a
    value or with an error: a call that panics inside the library (as
    [rsa.GenerateKey] does on a bit length too large to allocate) is not
    modelled, so a statement that [Build] returns is a statement about
    the dereferences of [Build] itself. *)
Record Env := mkEnv {
  ioutil_ReadFile : string -> bytes + error;
  rsa_GenerateKey : Z -> rsa.PrivateKey + error;
  jwk_ParseKey_WithPEM : bytes -> jwk.Key + error
}.

(* ===================================================================== *)
(** * Package gin_jwks: the builder                                       *)
(* ===================================================================== *)

(** Initialise a new config builder. *)
Definition NewConfigBuilder : M ConfigBuilder :=
  p ← new_config (mkConfig None None None);
  mret (mkConfigBuilder p).

Definition NewPrivateKey (n : ConfigBuilder) : ConfigNewKeyBuilder :=
  mkConfigNewKeyBuilder n.

Definition ImportPrivateKey (n : ConfigBuilder) : ConfigImportKeyBuilder :=
  mkConfigImportKeyBuilder n.

(** Initiate the import opts obj if nil. *)
Definition initiateImportOptsIfNil (n : ConfigImportKeyBuilder) : M unit :=
  let p := config (import_ConfigBuilder n) in
  c ← load_config p;
  match importPkOpts c with
  | None =>
      store_config p (mkConfig (key c) (newPkOpts c)
                               (Some (mkImportKeyOptions EmptyString EmptyString)))
  | Some _ => mret tt
  end.

(** The assignment [n.config.importPkOpts.f = v], as an update [upd] of
    the options structure; it panics when the options pointer is nil. *)
Definition assign_importPkOpts (n : ConfigImportKeyBuilder)
    (upd : ImportKeyOptions -> ImportKeyOptions) : M unit :=
  let p := config (import_ConfigBuilder n) in
  c ← load_config p;
  match importPkOpts c with
  | Some o => store_config p (mkConfig (key c) (newPkOpts c) (Some (upd o)))
  | None => panic nil_dereference
  end.

(** Add the private key path. *)
Definition WithPath (n : ConfigImportKeyBuilder) (privateKeyPemPath : string)
    : M ConfigImportKeyBuilder :=
  _ ← initiateImportOptsIfNil n;
  _ ← assign_importPkOpts n (fun o => mkImportKeyOptions (import_keyId o) privateKeyPemPath);
  mret n.

(** Add a key id to the private key (import facet). *)
Definition Import_WithKeyId (n : ConfigImportKeyBuilder) (keyId : string)
    : M ConfigImportKeyBuilder :=
  _ ← initiateImportOptsIfNil n;
  _ ← assign_importPkOpts n (fun o => mkImportKeyOptions keyId (privateKeyPemPath o));
  mret n.

(** Initiate the new opts obj if nil. *)
Definition initiateNewOptsIfNil (n : ConfigNewKeyBuilder) : M unit :=
  let p := config (new_ConfigBuilder n) in
  c ← load_config p;
  match newPkOpts c with
  | None =>
      store_config p (mkConfig (key c) (Some (mkNewKeyOptions EmptyString 0))
                               (importPkOpts c))
  | Some _ => mret tt
  end.

(** The assignment [n.config.newPkOpts.f = v]. *)
Definition assign_newPkOpts (n : ConfigNewKeyBuilder)
    (upd : NewKeyOptions -> NewKeyOptions) : M unit :=
  let p := config (new_ConfigBuilder n) in
  c ← load_config p;
  match newPkOpts c with
  | Some o => store_config p (mkConfig (key c) (Some (upd o)) (importPkOpts c))
  | None => panic nil_dereference
  end.

(** Add the key length. *)
Definition WithKeyLength (n : ConfigNewKeyBuilder) (bits' : Z)
    : M ConfigNewKeyBuilder :=
  _ ← initiateNewOptsIfNil n;
  _ ← assign_newPkOpts n (fun o => mkNewKeyOptions (new_keyId o) bits');
  mret n.

(** Add a key id to the private key (new-key facet). *)
Definition New_WithKeyId (n : ConfigNewKeyBuilder) (keyId : string)
    : M ConfigNewKeyBuilder :=
  _ ← initiateNewOptsIfNil n;
  _ ← assign_newPkOpts n (fun o => mkNewKeyOptions keyId (bits o));
  mret n.

Section Provisioning.

Context (env : Env).

(** Generate a private key. *)
Definition generatePrivateKey (opts : NewKeyOptions) : option jwk.Key * option error :=
  match rsa_GenerateKey env (bits opts) with
  | inr err => (None, Some (Errorf "failed to generate new RSA private key: " err LF))
  | inl rawPrivateKey =>
      match jwk.FromRaw rawPrivateKey with
      | inr err => (None, Some (Errorf "failed to create symmetric key: " err LF))
      | inl key => (Some key, None)
      end
  end.

(** Import a private key with pem format. *)
Definition importPrivateKey (opts : ImportKeyOptions) : option jwk.Key * option error :=
  match ioutil_ReadFile env (privateKeyPemPath opts) with
  | inr err => (None, Some (Errorf "cannot read private key " err EmptyString))
  | inl keyData =>
      match jwk_ParseKey_WithPEM env keyData with
      | inr err => (None, Some (Errorf "cannot parse private key " err EmptyString))
      | inl key => (Some key, None)
      end
  end.

(** The local variables [key] and [opts] of [Build]. *)
Abbreviation locals := (option jwk.Key * option OptionsValue)%type.

(** The block "generate a new private key": the error to return, or the
    local variables after the block. *)
Definition Build_generate (c : Config) (vars : locals) : error + locals :=
  match newPkOpts c with
  | Some newPkOpts =>
      let '(key, err) := generatePrivateKey newPkOpts in
      match err with
      | Some err => inl (Errorf "cannot generate new private key " err EmptyString)
      | None => inr (key, Some (NewOpts newPkOpts))
      end
  | None => inr vars
  end.

(** The block "import the private key". *)
Definition Build_import (c : Config) (vars : locals) : error + locals :=
  match importPkOpts c with
  | Some importPkOpts =>
      let '(key, err) := importPrivateKey importPkOpts in
      match err with
      | Some err => inl (Errorf "cannot import private key " err EmptyString)
      | None => inr (key, Some (ImportOpts importPkOpts))
      end
  | None => inr vars
  end.

(** [opts.KeyId()] on the interface value [opts]. *)
Definition call_KeyId (opts : option OptionsValue) : M string :=
  match opts with
  | Some o => mret (KeyId o)
  | None => panic nil_dereference
  end.

(** Build the config object in order to initiate the middleware.  The
    result is the pair of a [*Config] and an [error] of the Go function. *)
Definition Build (b : ConfigBuilder) : M (pointer * option error) :=
  c ← load_config (config b);
  if bool_decide (newPkOpts c ≠ None) && bool_decide (importPkOpts c ≠ None) then
    mret (None, Some "cannot import and generate a new private key")
  else
  match Build_generate c (None, None) with
  | inl err => mret (None, Some err)
  | inr vars =>
  match Build_import c vars with
  | inl err => mret (None, Some err)
  | inr (key, opts) =>
  match key with
  | None => mret (None, Some "generate or import a private key")
  | Some key =>
  (* add an id to the certificate according to RFC *)
  keyId ← call_KeyId opts;
  let '(key, err) := jwk.Key_Set key jwk.KeyIDKey (jwk.any_string keyId) in
  match err with
  | Some err =>
      mret (None, Some (Errorf "cannot add an id property to the private key " err EmptyString))
  | None =>
  let '(key, err) := jwk.Key_Set key jwk.KeyUsageKey (jwk.any_string KeyUsageAsSignature) in
  match err with
  | Some err =>
      mret (None, Some (Errorf "cannot add an id property to the private key " err EmptyString))
  | None =>
  (* cast to private key *)
  if negb (jwk.is_RSAPrivateKey key) then
    mret (None, Some (Errorf "expected jwk.SymmetricKey, got " (jwk.TypeName key) EmptyString))
  else
  (* generate public key *)
  let '(_, err) := jwk.PublicKey key in
  match err with
  | Some err => mret (None, Some (Errorf "failed to create public key " err EmptyString))
  | None =>
  p ← new_key key;
  _ ← store_config (config b) (mkConfig p (newPkOpts c) (importPkOpts c));
  mret (config b, None)
  end end end end end end.

End Provisioning.

(* ===================================================================== *)
(** * Package gin_jwks: the handler                                       *)
(* ===================================================================== *)

(** EncodeToString utility which converts []byte into a base64 string. *)
Definition EncodeToString (src : bytes) : string :=
  base64.RawURLEncoding_EncodeToString src.

(** The type assertion [v.([]byte)] on an [interface{}] value. *)
Definition assert_bytes (v : option jwk.any) : M bytes :=
  match v with
  | Some (jwk.any_bytes b) => mret b
  | Some (jwk.any_string _) =>
      panic "interface conversion: interface {} is string, not []uint8"
  | Some (jwk.any_KeyType _) =>
      panic "interface conversion: interface {} is jwa.KeyType, not []uint8"
  | None => panic "interface conversion: interface {} is nil, not []uint8"
  end.

(** A method call on the interface value [pubKey], nil when [None]. *)
Definition call_KeyType (pubKey : option jwk.Key) : M jwa.KeyType :=
  match pubKey with
  | Some k => mret (jwk.KeyType k)
  | None => panic nil_dereference
  end.

Abbreviation HandlerFunc := (gin.Context -> M gin.Context).

(** Jkws middleware exposing the public key properties required in order
    to decrypt a jwt token. *)
Definition Jkws (config : Config) : HandlerFunc := fun c =>
  (* get private key and its properties *)
  key ← load_key (key config);
  (* get public key *)
  let '(pubKey, _) := jwk.PublicKey key in
  (* get public key exponent *)
  let E := jwk.Get key "e" in
  (* get public key modulus *)
  let N := jwk.Get key "n" in
  (* generate jkws response *)
  kty ← call_KeyType pubKey;
  e ← assert_bytes E;
  n ← assert_bytes N;
  let res := {| KeyTypeKey := jwa.KeyType_String kty;
                AlgorithmKey := jwa.SignatureAlgorithm_String jwa.RS256;
                PubKeyExponentKey := EncodeToString e;
                PubKeyModulusKey := EncodeToString n;
                KeyUsageKey := jwk.KeyUsage key;
                KeyIDKey := jwk.KeyID key |} in
  (* expose jkws response *)
  mret (gin.JSON c 200 [("keys", json.Arr [JkwsResponse_json res])]).

(* ===================================================================== *)
(** * Fixtures                                                            *)
(* ===================================================================== *)

(** The modulus of the key behind the example output of the README
    (256 bytes, big-endian). *)
Definition fixture_modulus : bytes :=
  [
   xe8; x31; xb2; x04; xc8; xd8; x70; x2e; x67; x7f; xb7; x87; x1c; x2a; xaf; xc1;
   xd8; x23; xaf; x9f; xfa; xfc; x09; xcc; x6d; x5d; x76; xe2; x3b; x6c; xce; xee;
   xb6; xbe; x73; x07; x1d; x22; x24; x54; xfe; x9e; xe4; x55; x84; x41; x15; x16;
   x5d; x8c; x30; xd9; xcb; xbe; x3c; xa5; x76; x70; x9d; x4f; x71; x2b; xc8; xb3;
   xe3; x93; xc1; x26; xb2; x26; x7a; xd0; x4e; x1b; x0a; xe4; xfc; xc4; x02; xc1;
   xfc; xa4; x48; x40; xa0; x2d; x88; xce; x5a; x6f; xe2; x82; xbb; xbc; x96; x28;
   x52; xe9; x5c; x59; x32; xc5; xab; x44; xdc; x0b; x41; xa4; x21; x9d; xeb; x51;
   x49; xf6; x45; x10; x2a; xe7; x4f; x00; xd0; x52; x3e; x7a; x9d; x7b; x3e; x35;
   x3b; xc9; xa9; x99; x00; x7c; x25; x7d; x93; xd0; xe8; xd1; x05; x3a; x76; x9b;
   x05; x41; x3e; xa8; x26; xaa; xba; xfd; x4f; x98; xd5; xd5; xf8; xf2; xd9; x86;
   x1c; x00; xc6; x4b; xb1; x70; x68; x99; x09; xa7; xe5; x90; xd9; x87; xf2; x6c;
   x3b; x2f; xbf; x73; x41; x65; x40; x56; x0c; x88; x4b; xaf; x0e; x57; xb0; xa7;
   x6e; x56; xee; x37; x00; x8e; x3b; x3b; x8b; x9a; x71; x09; x0f; x7a; x70; x09;
   xf3; x2a; xed; xad; xb6; xbd; x6f; xc7; x5d; xf5; x56; xcd; x1a; x9e; x86; x47;
   xe0; xbc; x7d; x83; x99; xa9; x1b; x7e; x6d; x7b; x5b; x31; x5a; x5a; x8f; xda;
   xf0; x05; x1a; x53; xca; x23; x63; xc0; xca; xf9; x8c; x55; xd2; x95; x34; xa3].

(** Its published form. *)
Definition fixture_modulus_b64url : string :=
  "6DGyBMjYcC5nf7eHHCqvwdgjr5_6_AnMbV124jtszu62vnMHHSIkVP6e5FWEQRUWXYww2cu-PKV2cJ1PcSvIs-OTwSayJnrQThsK5PzEAsH8pEhAoC2Izlpv4oK7vJYoUulcWTLFq0TcC0GkIZ3rUUn2RRAq508A0FI-ep17PjU7yamZAHwlfZPQ6NEFOnabBUE-qCaquv1PmNXV-PLZhhwAxkuxcGiZCaflkNmH8mw7L79zQWVAVgyIS68OV7CnblbuNwCOOzuLmnEJD3pwCfMq7a22vW_HXfVWzRqehkfgvH2Dmakbfm17WzFaWo_a8AUaU8ojY8DK-YxV0pU0ow".

(** The key as the PEM parser returns it: no key id, no usage yet. *)
Definition fixture_key : jwk.Key :=
  jwk.mkKey (jwk.rsaPrivateKey fixture_modulus [x01; x00; x01]) None None.

(** A key of another type, as the parser returns it for a PEM file with an
    elliptic-curve private key. *)
Definition fixture_ec_key : jwk.Key :=
  jwk.mkKey (jwk.otherKey jwa.EC true) None None.

Definition bytes_of_string (s : string) : bytes := list_byte_of_string s.

Definition bytes_eqb (a b : bytes) : bool :=
  String.eqb (string_of_list_byte a) (string_of_list_byte b).

(** An environment for the examples: one PEM file with the RSA key, one
    with the elliptic-curve key, one file that is not PEM, no other file;
    the generator answers requests for 2048 bits.  The contents of the
    files are stand-ins, which the parser maps to the keys. *)
Definition fixture_env : Env :=
  {| ioutil_ReadFile := fun path =>
       if String.eqb path "../testdata/private.pem" then inl (bytes_of_string "RSA PRIVATE KEY")
       else if String.eqb path "../testdata/ec.pem" then inl (bytes_of_string "EC PRIVATE KEY")
       else if String.eqb path "../testdata/notes.txt" then inl (bytes_of_string "hello")
       else inr ("open " ++ path ++ ": no such file or directory")%string;
     rsa_GenerateKey := fun bits =>
       if (bits =? 2048)%Z
       then inl {| rsa.N := big.Int_SetBytes fixture_modulus; rsa.E := 65537 |}
       else inr "crypto/rsa: unsupported key size";
     jwk_ParseKey_WithPEM := fun data =>
       if bytes_eqb data (bytes_of_string "RSA PRIVATE KEY") then inl fixture_key
       else if bytes_eqb data (bytes_of_string "EC PRIVATE KEY") then inl fixture_ec_key
       else inr "failed to parse PEM encoded key: failed to decode PEM data" |}.

Definition empty_heap : Heap := mkHeap ∅ ∅.

Definition fixture_request : gin.Context :=
  gin.mkContext {| gin.Method := "GET"; gin.Path := "/.well-known/jwks.json" |} None.

(** The program of the README, import variant: build, then serve one
    request.  The result is what [Build] returned and the context after
    the handler ran. *)
Definition example_import (path keyId : string) : M (option error * option gin.Context) :=
  builder ← NewConfigBuilder;
  n ← WithPath (ImportPrivateKey builder) path;
  n ← Import_WithKeyId n keyId;
  '(config, err) ← Build fixture_env (import_ConfigBuilder n);
  match err with
  | Some err => mret (Some err, None)
  | None =>
      c ← load_config config;
      c' ← Jkws c fixture_request;
      mret (None, Some c')
  end.

(** The program of the README, generation variant, with the call of
    [WithKeyId] left out. *)
Definition example_generate_without_key_id : M (option error * option gin.Context) :=
  builder ← NewConfigBuilder;
  n ← WithKeyLength (NewPrivateKey builder) 2048;
  '(config, err) ← Build fixture_env (new_ConfigBuilder n);
  match err with
  | Some err => mret (Some err, None)
  | None =>
      c ← load_config config;
      c' ← Jkws c fixture_request;
      mret (None, Some c')
  end.

(** The value of a finished computation. *)
Definition result_of {A} (o : Outcome A) : option A :=
  match o with Done a _ => Some a | Panic _ => None end.

(** A JSON text written with single quotes for readability. *)
Definition json_text (s : string) : string :=
  string_of_list_ascii
    (List.map (fun c => if Ascii.eqb c "'" then "034"%char else c) (list_ascii_of_string s)).

(* ===================================================================== *)
(** * Vocabulary of the statements                                        *)
(* ===================================================================== *)

(** One call of a setter of one of the two facets, made through any
    builder or facet that shares the configuration of [b]:
    [b.NewPrivateKey().WithKeyLength(bits)] and so on. *)
Inductive Setter :=
| CallWithKeyLength (bits : Z)
| CallNewWithKeyId (keyId : string)
| CallWithPath (privateKeyPemPath : string)
| CallImportWithKeyId (keyId : string).

Definition generation_setter (s : Setter) : bool :=
  match s with
  | CallWithKeyLength _ | CallNewWithKeyId _ => true
  | _ => false
  end.

Definition import_setter (s : Setter) : bool :=
  match s with
  | CallWithPath _ | CallImportWithKeyId _ => true
  | _ => false
  end.

Definition call_setter (b : ConfigBuilder) (s : Setter) : M unit :=
  match s with
  | CallWithKeyLength bits => _ ← WithKeyLength (NewPrivateKey b) bits; mret tt
  | CallNewWithKeyId keyId => _ ← New_WithKeyId (NewPrivateKey b) keyId; mret tt
  | CallWithPath path => _ ← WithPath (ImportPrivateKey b) path; mret tt
  | CallImportWithKeyId keyId => _ ← Import_WithKeyId (ImportPrivateKey b) keyId; mret tt
  end.

(** A sequence of setter calls, in the order of the list. *)
Fixpoint call_setters (b : ConfigBuilder) (ss : list Setter) : M unit :=
  match ss with
  | [] => mret tt
  | s :: ss' => _ ← call_setter b s; call_setters b ss'
  end.

(** The options structure [Build] reads the key id from: the one of the
    single source that is configured. *)
Definition selected (c : Config) : option OptionsValue :=
  match newPkOpts c, importPkOpts c with
  | Some o, None => Some (NewOpts o)
  | None, Some o => Some (ImportOpts o)
  | _, _ => None
  end.

(** The key the selected source yields, before metadata is attached. *)
Definition source_key (env : Env) (o : OptionsValue) : option jwk.Key :=
  match o with
  | NewOpts o => fst (generatePrivateKey env o)
  | ImportOpts o => fst (importPrivateKey env o)
  end.

(** The key with the metadata [Build] attaches. *)
Definition with_metadata (k : jwk.Key) (keyId : string) : jwk.Key :=
  jwk.mkKey (jwk.material k) (Some keyId) (Some KeyUsageAsSignature).

(** The heap after a successful [Build]: the key in a fresh cell, the
    configuration pointing to it. *)
Definition installed (h : Heap) (l : loc) (c : Config) (k : jwk.Key) : Heap :=
  let p := fresh (dom (keys h)) in
  mkHeap (<[l := mkConfig (Some p) (newPkOpts c) (importPkOpts c)]> (configs h))
         (<[p := k]> (keys h)).

(** The JWKS document for an RSA key with parameters [n] and [e]. *)
Definition jwks_entry (n e : bytes) (use kid : string) : JkwsResponse :=
  {| KeyTypeKey := "RSA";
     AlgorithmKey := "RS256";
     PubKeyExponentKey := EncodeToString e;
     PubKeyModulusKey := EncodeToString n;
     KeyUsageKey := use;
     KeyIDKey := kid |}.

Definition jwks_document (entry : JkwsResponse) : gin.H :=
  [("keys", json.Arr [JkwsResponse_json entry])].

(** The response [c.JSON(200, document)] leaves in the writer. *)
Definition ok_response (entry : JkwsResponse) : gin.Response :=
  {| gin.Status := 200;
     gin.ContentType := "application/json; charset=utf-8";
     gin.Body := json.Marshal (json.Obj (jwks_document entry)) |}.


(** The heap of the examples: a fresh builder at address 1. *)
Definition fresh_builder : ConfigBuilder := mkConfigBuilder (Some 1%positive).

Definition fresh_builder_heap : Heap :=
  mkHeap {[ 1%positive := mkConfig None None None ]} ∅.


(** The public half of the fixture key, as the parser returns it for a
    PEM file that holds the public key. *)
Definition fixture_public_key : jwk.Key :=
  jwk.mkKey (jwk.rsaPublicKey fixture_modulus [x01; x00; x01]) None None.

(** The environment of the examples with one more file, which holds that
    public key in PEM form: the parser accepts it. *)
Definition public_key_env : Env :=
  {| ioutil_ReadFile := fun path =>
       if String.eqb path "../testdata/public.pem" then inl (bytes_of_string "PUBLIC KEY")
       else ioutil_ReadFile fixture_env path;
     rsa_GenerateKey := rsa_GenerateKey fixture_env;
     jwk_ParseKey_WithPEM := fun data =>
       if bytes_eqb data (bytes_of_string "PUBLIC KEY") then inl fixture_public_key
       else jwk_ParseKey_WithPEM fixture_env data |}.

(** The printable ASCII characters that [encoding/json] copies: all but
    the quote, the backslash and [<], [>], [&]. *)
Definition json_plain (c : ascii) : bool :=
  let n := nat_of_ascii c in
  ((32 <=? n) && (n <=? 126))%nat
  && negb (Ascii.eqb c "034" || Ascii.eqb c "\" || Ascii.eqb c "<"
           || Ascii.eqb c ">" || Ascii.eqb c "&").

(** The heap a computation ends with; the starting heap if it panics. *)
Definition heap_after {A} (m : M A) (h : Heap) : Heap :=
  match m h with Done _ h' => h' | Panic _ => h end.

(** The import example after its setters ran on a fresh builder, and
    after [Build] ran as well. *)
Definition import_configured_heap : Heap :=
  heap_after (call_setters fresh_builder
                [CallWithPath "../testdata/private.pem"; CallImportWithKeyId "my-id"])
             fresh_builder_heap.

Definition built_heap : Heap :=
  heap_after (Build fixture_env fresh_builder) import_configured_heap.

Definition built_config : Config :=
  mkConfig (Some 1%positive) None
           (Some (mkImportKeyOptions "my-id" "../testdata/private.pem")).

(** The builder configured to import the public key. *)
Definition public_key_configured_heap : Heap :=
  heap_after (call_setters fresh_builder
                [CallWithPath "../testdata/public.pem"; CallImportWithKeyId "my-id"])
             fresh_builder_heap.

(** The document the README shows for the fixture key. *)
Definition fixture_document : string :=
  json_text ("{'keys':[{'kty':'RSA','alg':'RS256','e':'AQAB','n':'"
             ++ fixture_modulus_b64url
             ++ "','use':'sig','kid':'my-id'}]}").

(* ===================================================================== *)
(** * Vocabulary of the further properties                                *)
(* ===================================================================== *)

(** The options a facet starts from: those of the configuration, or the
    zero structure that [initiateNewOptsIfNil] and
    [initiateImportOptsIfNil] allocate. *)
Definition new_options_or_zero (c : Config) : NewKeyOptions :=
  match newPkOpts c with
  | Some o => o
  | None => mkNewKeyOptions EmptyString 0
  end.

Definition import_options_or_zero (c : Config) : ImportKeyOptions :=
  match importPkOpts c with
  | Some o => o
  | None => mkImportKeyOptions EmptyString EmptyString
  end.

(** What a setter call is expected to do to the shared configuration,
    written as a pure update, to compare the setters with. *)
Definition updated (s : Setter) (c : Config) : Config :=
  match s with
  | CallWithKeyLength bits' =>
      mkConfig (key c)
               (Some (mkNewKeyOptions (new_keyId (new_options_or_zero c)) bits'))
               (importPkOpts c)
  | CallNewWithKeyId keyId =>
      mkConfig (key c)
               (Some (mkNewKeyOptions keyId (bits (new_options_or_zero c))))
               (importPkOpts c)
  | CallWithPath path =>
      mkConfig (key c) (newPkOpts c)
               (Some (mkImportKeyOptions (import_keyId (import_options_or_zero c)) path))
  | CallImportWithKeyId keyId =>
      mkConfig (key c) (newPkOpts c)
               (Some (mkImportKeyOptions keyId (privateKeyPemPath (import_options_or_zero c))))
  end.

Definition updated_by (ss : list Setter) (c : Config) : Config :=
  fold_left (fun c s => updated s c) ss c.

(** The argument of the last call of each setter in a sequence, [d] when
    the setter is not called. *)
Definition last_new_keyId (ss : list Setter) (d : string) : string :=
  fold_left (fun acc s => match s with CallNewWithKeyId k => k | _ => acc end) ss d.

Definition last_bits (ss : list Setter) (d : Z) : Z :=
  fold_left (fun acc s => match s with CallWithKeyLength n => n | _ => acc end) ss d.

Definition last_import_keyId (ss : list Setter) (d : string) : string :=
  fold_left (fun acc s => match s with CallImportWithKeyId k => k | _ => acc end) ss d.

Definition last_path (ss : list Setter) (d : string) : string :=
  fold_left (fun acc s => match s with CallWithPath p => p | _ => acc end) ss d.

(** The heap with the configuration at [l] replaced. *)
Definition with_config (h : Heap) (l : loc) (c : Config) : Heap :=
  mkHeap (<[l := c]> (configs h)) (keys h).

(** The characters of the URL-safe alphabet, by their ranges. *)
Definition url_safe (c : ascii) : bool :=
  let n := nat_of_ascii c in
  ((65 <=? n) && (n <=? 90) || (97 <=? n) && (n <=? 122)
   || (48 <=? n) && (n <=? 57) || (n =? 45) || (n =? 95))%nat.

Fixpoint string_forallb (f : ascii -> bool) (s : string) : bool :=
  match s with
  | EmptyString => true
  | String c s' => f c && string_forallb f s'
  end.

Definition encode_url_safe (n : nat) : bool := url_safe (base64.encode (Z.of_nat n)).

(** ** The example programs *)

(** The part of a [gin.Engine] the programs use: the registered routes.
    [gin.Default()] starts without routes; [r.GET] adds one. *)
Record Route := mkRoute {
  route_method : string;
  route_path : string;
  route_handler : HandlerFunc
}.

Abbreviation Engine := (list Route).

Definition gin_Default : Engine := [].

Definition Engine_GET (r : Engine) (relativePath : string) (handler : HandlerFunc) : Engine :=
  r ++ [mkRoute "GET" relativePath handler].

(** [main] of examples/new_private_key.go.  The result is the engine that
    [r.Run()] serves, or [None] when [main] returned before it. *)
Definition main_new_private_key (env : Env) : M (option Engine) :=
  let r := gin_Default in
  builder ← NewConfigBuilder;
  n ← New_WithKeyId (NewPrivateKey builder) "my-id";
  n ← WithKeyLength n 2048;
  '(config, err) ← Build env (new_ConfigBuilder n);
  match err with
  | Some err => mret None
  | None =>
      c ← load_config config;
      mret (Some (Engine_GET r "/.well-known/jwks.json" (Jkws c)))
  end.

(** [main] of the import example. *)
Definition main_import_private_key (env : Env) : M (option Engine) :=
  let r := gin_Default in
  builder ← NewConfigBuilder;
  n ← WithPath (ImportPrivateKey builder) "../testdata/private.pem";
  n ← Import_WithKeyId n "my-id";
  '(config, err) ← Build env (import_ConfigBuilder n);
  match err with
  | Some err => mret None
  | None =>
      c ← load_config config;
      mret (Some (Engine_GET r "/.well-known/jwks.json" (Jkws c)))
  end.

(** The import snippet of the README: its [if err != nil] block builds an
    error value and does not return, so the configuration is
    dereferenced whatever [Build] answered. *)
Definition readme_import_snippet (env : Env) : M (option Engine) :=
  let r := gin_Default in
  builder ← NewConfigBuilder;
  n ← WithPath (ImportPrivateKey builder) "../testdata/private.pem";
  n ← Import_WithKeyId n "my-id";
  '(config, err) ← Build env (import_ConfigBuilder n);
  c ← load_config config;
  mret (Some (Engine_GET r "/" (Jkws c))).

(* ===================================================================== *)
(** * Bit arithmetic                                                      *)
(* ===================================================================== *)

Section BitArithmetic.

(** Or-ing a value below [2^n] into a multiple of [2^n] adds it. *)
Lemma lor_low_bits (x y n : Z) :
  0 <= n -> 0 <= y < 2 ^ n -> Z.lor (x * 2 ^ n) y = x * 2 ^ n + y.
Proof.
  intros Hn Hy. symmetry. apply Z.add_nocarry_lor.
  apply Z.bits_inj'. intros m Hm.
  rewrite Z.land_spec, Z.bits_0.
  destruct (Z.lt_ge_cases m n) as [Hlt | Hge].
  - rewrite Z.mul_pow2_bits_low by assumption. reflexivity.
  - replace (Z.testbit y m) with false; [apply andb_false_r |].
    symmetry. rewrite <- (Z.mod_small y (2 ^ n)) by assumption.
    apply Z.mod_pow2_bits_high. lia.
Qed.

Lemma uint_of_byte_range (b : byte) : 0 <= uint_of_byte b < 256.
Proof.
  unfold uint_of_byte. pose proof (Byte.to_N_bounded b). lia.
Qed.

(** Truncating to a byte depends on the value modulo 256 only. *)
Lemma byte_of_uint_mod (v : Z) (b : byte) :
  v mod 256 = uint_of_byte b -> byte_of_uint v = b.
Proof.
  intros H. unfold byte_of_uint.
  change 255 with (Z.ones 8). rewrite Z.land_ones by lia.
  change (2 ^ 8) with 256. rewrite H. unfold uint_of_byte.
  rewrite N2Z.id, Byte.of_to_N. reflexivity.
Qed.

Lemma land_63 (v : Z) : Z.land v 63 = v mod 64.
Proof. change 63 with (Z.ones 6). rewrite Z.land_ones by lia. reflexivity. Qed.

Lemma sextet_range (v : Z) : 0 <= Z.land v 63 < 64.
Proof. rewrite land_63. apply Z.mod_pos_bound. lia. Qed.

End BitArithmetic.

(** Shifts by the constants of the codec, as multiplications and
    divisions. *)
Ltac shifts_to_arith :=
  repeat rewrite Z.shiftl_mul_pow2 by lia;
  repeat rewrite Z.shiftr_div_pow2 by lia;
  repeat rewrite land_63.

Section Quantum.

Variables a b c : Z.
Hypothesis Ha : 0 <= a < 256.
Hypothesis Hb : 0 <= b < 256.
Hypothesis Hc : 0 <= c < 256.

Lemma pack2 : Z.lor (Z.shiftl a 16) (Z.shiftl b 8) = a * 65536 + b * 256.
Proof.
  shifts_to_arith. rewrite lor_low_bits; lia.
Qed.

Lemma pack3 :
  Z.lor (Z.lor (Z.shiftl a 16) (Z.shiftl b 8)) c = a * 65536 + b * 256 + c.
Proof.
  rewrite pack2.
  replace (a * 65536 + b * 256) with ((a * 256 + b) * 2 ^ 8) by lia.
  rewrite lor_low_bits; lia.
Qed.

End Quantum.

Section Unpack.

Variables d0 d1 d2 d3 : Z.
Hypothesis H0 : 0 <= d0 < 64.
Hypothesis H1 : 0 <= d1 < 64.
Hypothesis H2 : 0 <= d2 < 64.
Hypothesis H3 : 0 <= d3 < 64.

Lemma join2 : Z.lor (Z.shiftl d0 18) (Z.shiftl d1 12) = d0 * 262144 + d1 * 4096.
Proof. shifts_to_arith. rewrite lor_low_bits; lia. Qed.

Lemma join3 :
  Z.lor (Z.lor (Z.shiftl d0 18) (Z.shiftl d1 12)) (Z.shiftl d2 6)
  = d0 * 262144 + d1 * 4096 + d2 * 64.
Proof.
  rewrite join2. shifts_to_arith.
  replace (d0 * 262144 + d1 * 4096) with ((d0 * 64 + d1) * 2 ^ 12) by lia.
  rewrite lor_low_bits; lia.
Qed.

Lemma join4 :
  Z.lor (Z.lor (Z.lor (Z.shiftl d0 18) (Z.shiftl d1 12)) (Z.shiftl d2 6)) d3
  = d0 * 262144 + d1 * 4096 + d2 * 64 + d3.
Proof.
  rewrite join3.
  replace (d0 * 262144 + d1 * 4096 + d2 * 64) with ((d0 * 4096 + d1 * 64 + d2) * 2 ^ 6) by lia.
  rewrite lor_low_bits; lia.
Qed.

End Unpack.

(* ===================================================================== *)
(** * math/big: the bytes of a number denote it                           *)
(* ===================================================================== *)

Section BigInt.

Lemma uint_of_byte_of_uint (v : Z) : uint_of_byte (byte_of_uint v) = v mod 256.
Proof.
  unfold byte_of_uint, uint_of_byte.
  change 255 with (Z.ones 8). rewrite Z.land_ones by lia. change (2 ^ 8) with 256.
  pose proof (Z.mod_pos_bound v 256 ltac:(lia)) as Hr.
  destruct (Byte.of_N (Z.to_N (v mod 256))) as [b |] eqn:Hb.
  - apply Byte.to_of_N in Hb. rewrite Hb. lia.
  - apply Byte.of_N_None_iff in Hb. lia.
Qed.

Lemma push_byte (q v : Z) :
  big.push q (byte_of_uint v) = q * 256 + v mod 256.
Proof.
  unfold big.push. rewrite uint_of_byte_of_uint, Z.shiftl_mul_pow2 by lia.
  apply lor_low_bits; [lia |]. apply Z.mod_pos_bound. lia.
Qed.

Lemma bytes_of_positive_value (fuel : nat) :
  forall (p : positive) (acc : bytes),
    Z.pos p < 256 ^ (Z.of_nat fuel + 1) ->
    fold_left big.push (big.bytes_of_positive fuel p acc) 0
    = fold_left big.push acc (Z.pos p).
Proof.
  induction fuel as [| fuel IH]; intros p acc Hp.
  - cbn [big.bytes_of_positive fold_left]. rewrite push_byte.
    change (256 ^ (Z.of_nat 0 + 1)) with 256 in Hp.
    rewrite Z.mod_small by lia. reflexivity.
  - cbn [big.bytes_of_positive].
    assert (Hsplit : Z.pos p = Z.shiftr (Z.pos p) 8 * 256 + Z.pos p mod 256).
    { rewrite Z.shiftr_div_pow2 by lia. change (2 ^ 8) with 256.
      pose proof (Z.div_mod (Z.pos p) 256 ltac:(lia)). lia. }
    assert (Hq : Z.shiftr (Z.pos p) 8 < 256 ^ (Z.of_nat fuel + 1)).
    { rewrite Z.shiftr_div_pow2 by lia. change (2 ^ 8) with 256.
      apply Z.div_lt_upper_bound; [lia |].
      replace (Z.of_nat (S fuel) + 1) with (Z.succ (Z.of_nat fuel + 1)) in Hp by lia.
      rewrite Z.pow_succ_r in Hp by lia. lia. }
    assert (Hnn : 0 <= Z.shiftr (Z.pos p) 8) by (apply Z.shiftr_nonneg; lia).
    destruct (Z.shiftr (Z.pos p) 8) as [| q | q] eqn:Hs.
    + cbn [fold_left]. rewrite push_byte. f_equal. lia.
    + rewrite IH by exact Hq. cbn [fold_left]. rewrite push_byte. f_equal. lia.
    + lia.
Qed.

Lemma positive_below_size (p : positive) : Z.pos p < 2 ^ Z.of_nat (Pos.size_nat p).
Proof.
  induction p as [p IH | p IH |]; cbn [Pos.size_nat].
  - rewrite Nat2Z.inj_succ, Z.pow_succ_r by lia. lia.
  - rewrite Nat2Z.inj_succ, Z.pow_succ_r by lia. lia.
  - reflexivity.
Qed.

(** Reading the bytes of a number as a big-endian number gives its
    absolute value. *)
Lemma Int_SetBytes_Int_Bytes (x : Z) : big.Int_SetBytes (big.Int_Bytes x) = Z.abs x.
Proof.
  unfold big.Int_SetBytes, big.Int_Bytes.
  destruct (Z.abs x) as [| p | p] eqn:Hx; [reflexivity | | lia].
  rewrite bytes_of_positive_value; [reflexivity |].
  pose proof (positive_below_size p) as Hlt.
  eapply Z.lt_le_trans; [exact Hlt |].
  transitivity (2 ^ (8 * (Z.of_nat (Pos.size_nat p) + 1))).
  - apply Z.pow_le_mono_r; lia.
  - rewrite Z.pow_mul_r by lia. reflexivity.
Qed.

End BigInt.

(* ===================================================================== *)
(** * base64: decoding inverts encoding                                   *)
(* ===================================================================== *)

Section Base64.

Import base64.

(** The characters of the alphabet decode to their index and are not
    line breaks: checked on the 64 indices. *)
Lemma alphabet_checked : forallb alphabet_ok (seq 0 64) = true.
Proof. vm_compute. reflexivity. Qed.

Lemma alphabet_ok_at (v : Z) : 0 <= v < 64 -> alphabet_ok (Z.to_nat v) = true.
Proof.
  intros Hv. pose proof alphabet_checked as H.
  rewrite forallb_forall in H. apply H. apply in_seq. lia.
Qed.

Lemma decodeMap_encode (v : Z) : 0 <= v < 64 -> decodeMap (encode v) = Some v.
Proof.
  intros Hv. pose proof (alphabet_ok_at v Hv) as H. unfold alphabet_ok in H.
  rewrite Z2Nat.id in H by lia.
  destruct (decodeMap (encode v)) as [j |]; [| discriminate].
  apply andb_true_iff in H as [H _]. apply Z.eqb_eq in H. congruence.
Qed.

Lemma encode_kept (v : Z) : 0 <= v < 64 -> keep (encode v) = true.
Proof.
  intros Hv. pose proof (alphabet_ok_at v Hv) as H. unfold alphabet_ok in H.
  rewrite Z2Nat.id in H by lia.
  destruct (decodeMap (encode v)); [| discriminate].
  now apply andb_true_iff in H as [_ H].
Qed.

Lemma sextets_of_encode_cons (v : Z) (cs : list ascii) (d : list Z) :
  0 <= v < 64 ->
  sextets_of (List.filter keep cs) = Some d ->
  sextets_of (List.filter keep (encode v :: cs)) = Some (v :: d).
Proof.
  intros Hv Hd. cbn [List.filter].
  rewrite (encode_kept v Hv). cbn [sextets_of].
  rewrite (decodeMap_encode v Hv), Hd. reflexivity.
Qed.

(** Lists, three elements at a time. *)
Lemma list_ind3 {A} (P : list A -> Prop) :
  P [] -> (forall a, P [a]) -> (forall a b, P [a; b]) ->
  (forall a b c l, P l -> P (a :: b :: c :: l)) ->
  forall l, P l.
Proof.
  intros H0 H1 H2 H3. fix IH 1.
  intros [| a [| b [| c l]]];
    [apply H0 | apply H1 | apply H2 | apply H3, IH].
Qed.

(** The arithmetic of one quantum: the four 6-bit groups of three bytes
    put the three bytes back. *)
Lemma regroup (V : Z) :
  0 <= V < 16777216 ->
  (V / 262144) mod 64 * 262144 + (V / 4096) mod 64 * 4096
  + (V / 64) mod 64 * 64 + V mod 64 = V.
Proof. intros HV. Z.div_mod_to_equations. lia. Qed.

Lemma quantum_roundtrip (s0 s1 s2 : byte) :
  let val := Z.lor (Z.lor (Z.shiftl (uint_of_byte s0) 16)
                          (Z.shiftl (uint_of_byte s1) 8)) (uint_of_byte s2) in
  let val' := Z.lor (Z.lor (Z.lor (Z.shiftl (Z.land (Z.shiftr val 18) 63) 18)
                                  (Z.shiftl (Z.land (Z.shiftr val 12) 63) 12))
                           (Z.shiftl (Z.land (Z.shiftr val 6) 63) 6))
                    (Z.land val 63) in
  byte_of_uint (Z.shiftr val' 16) = s0 /\
  byte_of_uint (Z.shiftr val' 8) = s1 /\
  byte_of_uint val' = s2.
Proof.
  intros val val'.
  pose proof (uint_of_byte_range s0) as R0.
  pose proof (uint_of_byte_range s1) as R1.
  pose proof (uint_of_byte_range s2) as R2.
  assert (Hval : val = uint_of_byte s0 * 65536 + uint_of_byte s1 * 256 + uint_of_byte s2)
    by (apply pack3; assumption).
  assert (Hval' : val' = val).
  { unfold val'. rewrite join4 by apply sextet_range.
    shifts_to_arith. change (2 ^ 18) with 262144. change (2 ^ 12) with 4096.
    change (2 ^ 6) with 64. apply regroup. lia. }
  rewrite Hval', Hval. shifts_to_arith.
  repeat split; apply byte_of_uint_mod; Z.div_mod_to_equations; lia.
Qed.

Lemma remainder2_roundtrip (s0 s1 : byte) :
  let val := Z.lor (Z.shiftl (uint_of_byte s0) 16) (Z.shiftl (uint_of_byte s1) 8) in
  let val' := Z.lor (Z.lor (Z.shiftl (Z.land (Z.shiftr val 18) 63) 18)
                           (Z.shiftl (Z.land (Z.shiftr val 12) 63) 12))
                    (Z.shiftl (Z.land (Z.shiftr val 6) 63) 6) in
  byte_of_uint (Z.shiftr val' 16) = s0 /\
  byte_of_uint (Z.shiftr val' 8) = s1.
Proof.
  intros val val'.
  pose proof (uint_of_byte_range s0) as R0.
  pose proof (uint_of_byte_range s1) as R1.
  assert (Hval : val = uint_of_byte s0 * 65536 + uint_of_byte s1 * 256)
    by (apply pack2; assumption).
  unfold val'. rewrite join3 by apply sextet_range.
  rewrite Hval. shifts_to_arith.
  split; apply byte_of_uint_mod; Z.div_mod_to_equations; lia.
Qed.

Lemma remainder1_roundtrip (s0 : byte) :
  let val := Z.shiftl (uint_of_byte s0) 16 in
  let val' := Z.lor (Z.shiftl (Z.land (Z.shiftr val 18) 63) 18)
                    (Z.shiftl (Z.land (Z.shiftr val 12) 63) 12) in
  byte_of_uint (Z.shiftr val' 16) = s0.
Proof.
  intros val val'.
  pose proof (uint_of_byte_range s0) as R0.
  unfold val'. rewrite join2 by apply sextet_range.
  unfold val. shifts_to_arith.
  apply byte_of_uint_mod; Z.div_mod_to_equations; lia.
Qed.

(** The characters [Encode] writes decode to 6-bit groups from which
    [decodeQuanta] recovers the input. *)
Lemma Encode_decodes (src : bytes) :
  exists d : list Z,
    sextets_of (List.filter keep (list_ascii_of_string (Encode src))) = Some d
    /\ decodeQuanta d = Some src.
Proof.
  induction src as [| s0 | s0 s1 | s0 s1 s2 rest [d [Hd Hq]]] using list_ind3.
  - exists []. split; reflexivity.
  - eexists. split.
    + cbn [Encode list_ascii_of_string].
      repeat (apply sextets_of_encode_cons; [apply sextet_range |]). reflexivity.
    + cbn [decodeQuanta]. rewrite remainder1_roundtrip. reflexivity.
  - eexists. split.
    + cbn [Encode list_ascii_of_string].
      repeat (apply sextets_of_encode_cons; [apply sextet_range |]). reflexivity.
    + cbn [decodeQuanta].
      destruct (remainder2_roundtrip s0 s1) as [E0 E1]. rewrite E0, E1. reflexivity.
  - eexists. split.
    + cbn [Encode list_ascii_of_string].
      repeat (apply sextets_of_encode_cons; [apply sextet_range |]). exact Hd.
    + cbn [decodeQuanta]. rewrite Hq.
      destruct (quantum_roundtrip s0 s1 s2) as (E0 & E1 & E2).
      rewrite E0, E1, E2. reflexivity.
Qed.

Lemma DecodeString_EncodeToString (src : bytes) :
  RawURLEncoding_DecodeString (RawURLEncoding_EncodeToString src) = Some src.
Proof.
  unfold RawURLEncoding_DecodeString, RawURLEncoding_EncodeToString.
  destruct (Encode_decodes src) as [d [Hd Hq]]. rewrite Hd. exact Hq.
Qed.

End Base64.

(* ===================================================================== *)
(** * The builder                                                         *)
(* ===================================================================== *)

Ltac unfold_M :=
  unfold mbind, M_bind, mret, M_ret, panic, load_config, store_config,
    new_config, new_key, load_key, call_KeyId, call_KeyType in *.

(** An error return of [Build]: no configuration, the heap untouched. *)
Ltac build_failed := intros [= <- <-]; left; eauto.

Section BuildLemmas.

Context (env : Env).

Lemma generatePrivateKey_cases (o : NewKeyOptions) :
  (exists k, generatePrivateKey env o = (Some k, None)) \/
  (exists err, generatePrivateKey env o = (None, Some err)).
Proof.
  unfold generatePrivateKey.
  destruct (rsa_GenerateKey env (bits o)) as [raw | err]; [| right; eauto].
  destruct (jwk.FromRaw raw) as [k | err]; [left | right]; eauto.
Qed.

Lemma importPrivateKey_cases (o : ImportKeyOptions) :
  (exists k, importPrivateKey env o = (Some k, None)) \/
  (exists err, importPrivateKey env o = (None, Some err)).
Proof.
  unfold importPrivateKey.
  destruct (ioutil_ReadFile env (privateKeyPemPath o)) as [data | err]; [| right; eauto].
  destruct (jwk_ParseKey_WithPEM env data) as [k | err]; [left | right]; eauto.
Qed.

(** Every way [Build] can end without a panic: with an error, no
    configuration and the heap as it was; or with the configuration, no
    error, and the resolved key installed. *)
Lemma Build_inv (b : ConfigBuilder) (h h' : Heap) (r : pointer * option error) :
  Build env b h = Done r h' ->
  (exists err, r = (None, Some err) /\ h' = h) \/
  (exists l c o k0,
      config b = Some l /\ configs h !! l = Some c /\
      selected c = Some o /\ source_key env o = Some k0 /\
      jwk.is_RSAPrivateKey k0 = true /\
      r = (Some l, None) /\
      h' = installed h l c (with_metadata k0 (KeyId o))).
Proof.
  unfold Build, Build_generate, Build_import. unfold_M.
  destruct (config b) as [l |] eqn:Hb; [| discriminate].
  destruct (configs h !! l) as [c |] eqn:Hc; [| discriminate].
  destruct (newPkOpts c) as [no |] eqn:Hn, (importPkOpts c) as [io |] eqn:Hi; cbn.
  - build_failed.
  - destruct (generatePrivateKey_cases no) as [[k Hg] | [err Hg]];
      rewrite Hg; cbn; [| build_failed].
    destruct (jwk.material k) eqn:Hm; cbn; rewrite ?Hc; [| build_failed ..].
    intros [= <- <-]. right. exists l, c, (NewOpts no), k.
    unfold selected, source_key, jwk.is_RSAPrivateKey, installed, with_metadata.
    rewrite Hn, Hi, Hg, Hm. auto 10.
  - destruct (importPrivateKey_cases io) as [[k Hg] | [err Hg]];
      rewrite Hg; cbn; [| build_failed].
    destruct (jwk.material k) eqn:Hm; cbn; rewrite ?Hc; [| build_failed ..].
    intros [= <- <-]. right. exists l, c, (ImportOpts io), k.
    unfold selected, source_key, jwk.is_RSAPrivateKey, installed, with_metadata.
    rewrite Hn, Hi, Hg, Hm. auto 10.
  - build_failed.
Qed.

End BuildLemmas.

(* ===================================================================== *)
(** * The handler                                                         *)
(* ===================================================================== *)

Section HandlerLemmas.

(** On a configuration whose key is an RSA private key the handler
    renders the document of that key and leaves the heap as it was. *)
Lemma Jkws_rsa (config : Config) (h : Heap) (p : loc) (k : jwk.Key)
    (n e : bytes) (c : gin.Context) :
  key config = Some p ->
  keys h !! p = Some k ->
  jwk.material k = jwk.rsaPrivateKey n e ->
  Jkws config c h =
    Done (gin.mkContext (gin.request c)
            (Some (ok_response (jwks_entry n e (jwk.KeyUsage k) (jwk.KeyID k))))) h.
Proof.
  intros Hp Hk Hm. unfold Jkws. unfold_M. rewrite Hp, Hk.
  unfold jwk.PublicKey, jwk.Get, jwk.KeyType. rewrite Hm. reflexivity.
Qed.

(** The handler only reads the heap. *)
Lemma Jkws_reads_only (config : Config) (h h' : Heap) (c c' : gin.Context) :
  Jkws config c h = Done c' h' -> h' = h.
Proof.
  unfold Jkws. unfold_M.
  destruct (key config) as [p |]; [| discriminate].
  destruct (keys h !! p) as [k |]; [| discriminate].
  destruct (jwk.PublicKey k) as [[pk |] err]; [| discriminate].
  unfold assert_bytes. unfold_M.
  destruct (jwk.Get k "e") as [[] |]; try discriminate.
  destruct (jwk.Get k "n") as [[] |]; try discriminate.
  intros [= _ <-]. reflexivity.
Qed.

End HandlerLemmas.

Section InstalledHeap.

Context (h : Heap) (l : loc) (c : Config) (k : jwk.Key).

Lemma installed_config :
  configs (installed h l c k) !! l
  = Some (mkConfig (Some (fresh (dom (keys h)))) (newPkOpts c) (importPkOpts c)).
Proof. unfold installed. cbn. apply lookup_insert_eq. Qed.

Lemma installed_key :
  keys (installed h l c k) !! fresh (dom (keys h)) = Some k.
Proof. unfold installed. cbn. apply lookup_insert_eq. Qed.

(** The cell of the new key was not in use: keys resolved earlier stay. *)
Lemma installed_keeps_keys (p : loc) (k' : jwk.Key) :
  keys h !! p = Some k' -> keys (installed h l c k) !! p = Some k'.
Proof.
  intros Hp. unfold installed. cbn. rewrite lookup_insert_ne; [assumption |].
  intros <-. pose proof (is_fresh (dom (keys h))) as Hf.
  apply Hf. apply elem_of_dom. eauto.
Qed.

End InstalledHeap.

(** The handler on the configuration a successful [Build] installed. *)
Lemma Jkws_installed (h : Heap) (l : loc) (c0 : Config) (k0 : jwk.Key)
    (keyId : string) (n e : bytes) (ctx : gin.Context) :
  jwk.material k0 = jwk.rsaPrivateKey n e ->
  Jkws (mkConfig (Some (fresh (dom (keys h)))) (newPkOpts c0) (importPkOpts c0)) ctx
       (installed h l c0 (with_metadata k0 keyId))
  = Done (gin.mkContext (gin.request ctx)
            (Some (ok_response (jwks_entry n e KeyUsageAsSignature keyId))))
         (installed h l c0 (with_metadata k0 keyId)).
Proof.
  intros Hm.
  apply (Jkws_rsa _ _ (fresh (dom (keys h))) (with_metadata k0 keyId) n e ctx).
  - reflexivity.
  - apply installed_key.
  - exact Hm.
Qed.

(** A successful [Build], unfolded: what the returned configuration and
    its key are. *)
Lemma Build_success (env : Env) (b : ConfigBuilder) (h h' : Heap) (p : pointer) :
  Build env b h = Done (p, None) h' ->
  exists l c o k0 n e,
    p = Some l /\ config b = Some l /\ configs h !! l = Some c /\
    selected c = Some o /\ source_key env o = Some k0 /\
    jwk.material k0 = jwk.rsaPrivateKey n e /\
    h' = installed h l c (with_metadata k0 (KeyId o)).
Proof.
  intros HB. apply Build_inv in HB as [(err & [=] & _) | HB].
  destruct HB as (l & c & o & k0 & Hb & Hc & Hs & Hk & Hrsa & [= ->] & ->).
  unfold jwk.is_RSAPrivateKey in Hrsa.
  destruct (jwk.material k0) as [n e | |] eqn:Hm; try discriminate.
  exists l, c, o, k0, n, e. auto 10.
Qed.

(** Conversely, [Build] succeeds as soon as the one selected source
    yields an RSA private key; the key id plays no part in it. *)
Lemma Build_succeeds (env : Env) (b : ConfigBuilder) (h : Heap) (l : loc)
    (c : Config) (o : OptionsValue) (k0 : jwk.Key) :
  config b = Some l -> configs h !! l = Some c ->
  selected c = Some o -> source_key env o = Some k0 ->
  jwk.is_RSAPrivateKey k0 = true ->
  Build env b h = Done (Some l, None) (installed h l c (with_metadata k0 (KeyId o))).
Proof.
  intros Hb Hc Hs Hk Hrsa.
  unfold Build, Build_generate, Build_import. unfold_M. rewrite Hb, Hc.
  unfold selected in Hs. unfold jwk.is_RSAPrivateKey in Hrsa.
  destruct (jwk.material k0) as [n e | |] eqn:Hm; try discriminate.
  destruct (newPkOpts c) as [no |] eqn:Hn, (importPkOpts c) as [io |] eqn:Hi;
    try discriminate; injection Hs as <-; cbn in Hk |- *.
  - destruct (generatePrivateKey_cases env no) as [[k Hg] | [err Hg]];
      rewrite Hg in Hk |- *; [| discriminate].
    injection Hk as ->. cbn. rewrite Hm. cbn. rewrite Hc.
    unfold installed, with_metadata. rewrite Hn, Hi, Hm. reflexivity.
  - destruct (importPrivateKey_cases env io) as [[k Hg] | [err Hg]];
      rewrite Hg in Hk |- *; [| discriminate].
    injection Hk as ->. cbn. rewrite Hm. cbn. rewrite Hc.
    unfold installed, with_metadata. rewrite Hn, Hi, Hm. reflexivity.
Qed.

(** [Build] does not panic on a builder whose configuration is allocated. *)
Lemma Build_returns (env : Env) (b : ConfigBuilder) (h : Heap) (l : loc) (c : Config) :
  config b = Some l -> configs h !! l = Some c ->
  exists r h', Build env b h = Done r h'.
Proof.
  intros Hb Hc. unfold Build, Build_generate, Build_import. unfold_M.
  rewrite Hb, Hc.
  destruct (newPkOpts c) as [no |], (importPkOpts c) as [io |]; cbn; eauto.
  - destruct (generatePrivateKey_cases env no) as [[k ->] | [err ->]]; cbn; eauto.
    destruct (jwk.material k); cbn; rewrite ?Hc; eauto.
  - destruct (importPrivateKey_cases env io) as [[k ->] | [err ->]]; cbn; eauto.
    destruct (jwk.material k); cbn; rewrite ?Hc; eauto.
Qed.

(** ** The setters and the failures of [Build] *)

Section Setters.

Context (b : ConfigBuilder) (l : loc) (Hb : config b = Some l).

Lemma load_config_ok (h : Heap) (c : Config) :
  configs h !! l = Some c -> load_config (Some l) h = Done c h.
Proof. intros Hc. unfold load_config. rewrite Hc. reflexivity. Qed.

Lemma store_config_ok (h : Heap) (c c' : Config) :
  configs h !! l = Some c ->
  store_config (Some l) c' h = Done tt (mkHeap (<[l := c']> (configs h)) (keys h)).
Proof. intros Hc. unfold store_config. rewrite Hc. reflexivity. Qed.

(** After [initiateNewOptsIfNil] the new-key options exist; nothing else
    of the configuration changed. *)
Lemma initiateNewOptsIfNil_spec (h : Heap) (c : Config) :
  configs h !! l = Some c ->
  exists h1 o,
    initiateNewOptsIfNil (NewPrivateKey b) h = Done tt h1 /\
    configs h1 !! l = Some (mkConfig (key c) (Some o) (importPkOpts c)) /\
    keys h1 = keys h.
Proof using Hb.
  intros Hc. unfold initiateNewOptsIfNil, NewPrivateKey. cbn. rewrite Hb.
  unfold mbind, M_bind. rewrite (load_config_ok h c Hc).
  destruct (newPkOpts c) as [o |] eqn:Hn.
  - exists h, o. repeat split. rewrite Hc. destruct c; cbn in *. congruence.
  - rewrite (store_config_ok h c _ Hc). eexists _, _. split; [reflexivity |].
    cbn. split; [apply lookup_insert_eq | reflexivity].
Qed.

Lemma initiateImportOptsIfNil_spec (h : Heap) (c : Config) :
  configs h !! l = Some c ->
  exists h1 o,
    initiateImportOptsIfNil (ImportPrivateKey b) h = Done tt h1 /\
    configs h1 !! l = Some (mkConfig (key c) (newPkOpts c) (Some o)) /\
    keys h1 = keys h.
Proof using Hb.
  intros Hc. unfold initiateImportOptsIfNil, ImportPrivateKey. cbn. rewrite Hb.
  unfold mbind, M_bind. rewrite (load_config_ok h c Hc).
  destruct (importPkOpts c) as [o |] eqn:Hn.
  - exists h, o. repeat split. rewrite Hc. destruct c; cbn in *. congruence.
  - rewrite (store_config_ok h c _ Hc). eexists _, _. split; [reflexivity |].
    cbn. split; [apply lookup_insert_eq | reflexivity].
Qed.

Lemma assign_newPkOpts_spec (upd : NewKeyOptions -> NewKeyOptions)
    (h : Heap) (c : Config) (o : NewKeyOptions) :
  configs h !! l = Some c -> newPkOpts c = Some o ->
  assign_newPkOpts (NewPrivateKey b) upd h
  = Done tt (mkHeap (<[l := mkConfig (key c) (Some (upd o)) (importPkOpts c)]> (configs h))
                    (keys h)).
Proof using Hb.
  intros Hc Hn. unfold assign_newPkOpts, NewPrivateKey. cbn. rewrite Hb.
  unfold mbind, M_bind. rewrite (load_config_ok h c Hc), Hn.
  apply (store_config_ok h c _ Hc).
Qed.

Lemma assign_importPkOpts_spec (upd : ImportKeyOptions -> ImportKeyOptions)
    (h : Heap) (c : Config) (o : ImportKeyOptions) :
  configs h !! l = Some c -> importPkOpts c = Some o ->
  assign_importPkOpts (ImportPrivateKey b) upd h
  = Done tt (mkHeap (<[l := mkConfig (key c) (newPkOpts c) (Some (upd o))]> (configs h))
                    (keys h)).
Proof using Hb.
  intros Hc Hn. unfold assign_importPkOpts, ImportPrivateKey. cbn. rewrite Hb.
  unfold mbind, M_bind. rewrite (load_config_ok h c Hc), Hn.
  apply (store_config_ok h c _ Hc).
Qed.

(** A setter of the new-key facet: initialise, then assign. *)
Lemma new_setter_spec (upd : NewKeyOptions -> NewKeyOptions) (h : Heap) (c : Config) :
  configs h !! l = Some c ->
  exists h1 o,
    (_ ← initiateNewOptsIfNil (NewPrivateKey b);
     assign_newPkOpts (NewPrivateKey b) upd) h = Done tt h1 /\
    configs h1 !! l = Some (mkConfig (key c) (Some o) (importPkOpts c)) /\
    keys h1 = keys h.
Proof using Hb.
  intros Hc.
  destruct (initiateNewOptsIfNil_spec h c Hc) as (h1 & o & Hrun & Hc1 & Hk1).
  unfold mbind, M_bind. rewrite Hrun.
  rewrite (assign_newPkOpts_spec upd h1 _ o Hc1 eq_refl).
  eexists _, _. split; [reflexivity |]. cbn.
  split; [apply lookup_insert_eq | exact Hk1].
Qed.

Lemma import_setter_spec (upd : ImportKeyOptions -> ImportKeyOptions) (h : Heap) (c : Config) :
  configs h !! l = Some c ->
  exists h1 o,
    (_ ← initiateImportOptsIfNil (ImportPrivateKey b);
     assign_importPkOpts (ImportPrivateKey b) upd) h = Done tt h1 /\
    configs h1 !! l = Some (mkConfig (key c) (newPkOpts c) (Some o)) /\
    keys h1 = keys h.
Proof using Hb.
  intros Hc.
  destruct (initiateImportOptsIfNil_spec h c Hc) as (h1 & o & Hrun & Hc1 & Hk1).
  unfold mbind, M_bind. rewrite Hrun.
  rewrite (assign_importPkOpts_spec upd h1 _ o Hc1 eq_refl).
  eexists _, _. split; [reflexivity |]. cbn.
  split; [apply lookup_insert_eq | exact Hk1].
Qed.

(** What one setter call does to the shared configuration: the options
    of its facet exist afterwards, those of the other facet and the key
    pointer are as before, and no key cell is touched. *)
Lemma call_setter_spec (s : Setter) (h : Heap) (c : Config) :
  configs h !! l = Some c ->
  exists h1 c1,
    call_setter b s h = Done tt h1 /\ configs h1 !! l = Some c1 /\
    keys h1 = keys h /\ key c1 = key c /\
    (generation_setter s = true -> newPkOpts c1 <> None) /\
    (import_setter s = true -> importPkOpts c1 <> None) /\
    (newPkOpts c <> None -> newPkOpts c1 <> None) /\
    (importPkOpts c <> None -> importPkOpts c1 <> None).
Proof using Hb.
  intros Hc.
  destruct s as [bits' | keyId | path | keyId]; cbn [call_setter].
  - destruct (new_setter_spec (fun o => mkNewKeyOptions (new_keyId o) bits') h c Hc)
      as (h1 & o & Hrun & Hc1 & Hk1).
    exists h1, (mkConfig (key c) (Some o) (importPkOpts c)).
    unfold WithKeyLength. unfold mbind, M_bind in *.
    destruct (initiateNewOptsIfNil _ h); [| discriminate]. rewrite Hrun.
    cbn. repeat split; auto; discriminate.
  - destruct (new_setter_spec (fun o => mkNewKeyOptions keyId (bits o)) h c Hc)
      as (h1 & o & Hrun & Hc1 & Hk1).
    exists h1, (mkConfig (key c) (Some o) (importPkOpts c)).
    unfold New_WithKeyId. unfold mbind, M_bind in *.
    destruct (initiateNewOptsIfNil _ h); [| discriminate]. rewrite Hrun.
    cbn. repeat split; auto; discriminate.
  - destruct (import_setter_spec (fun o => mkImportKeyOptions (import_keyId o) path) h c Hc)
      as (h1 & o & Hrun & Hc1 & Hk1).
    exists h1, (mkConfig (key c) (newPkOpts c) (Some o)).
    unfold WithPath. unfold mbind, M_bind in *.
    destruct (initiateImportOptsIfNil _ h); [| discriminate]. rewrite Hrun.
    cbn. repeat split; auto; discriminate.
  - destruct (import_setter_spec (fun o => mkImportKeyOptions keyId (privateKeyPemPath o)) h c Hc)
      as (h1 & o & Hrun & Hc1 & Hk1).
    exists h1, (mkConfig (key c) (newPkOpts c) (Some o)).
    unfold Import_WithKeyId. unfold mbind, M_bind in *.
    destruct (initiateImportOptsIfNil _ h); [| discriminate]. rewrite Hrun.
    cbn. repeat split; auto; discriminate.
Qed.

Lemma call_setters_spec (ss : list Setter) (h : Heap) (c : Config) :
  configs h !! l = Some c ->
  exists h1 c1,
    call_setters b ss h = Done tt h1 /\ configs h1 !! l = Some c1 /\
    keys h1 = keys h /\ key c1 = key c /\
    (existsb generation_setter ss = true -> newPkOpts c1 <> None) /\
    (existsb import_setter ss = true -> importPkOpts c1 <> None) /\
    (newPkOpts c <> None -> newPkOpts c1 <> None) /\
    (importPkOpts c <> None -> importPkOpts c1 <> None).
Proof using Hb.
  revert h c. induction ss as [| s ss IH]; intros h c Hc.
  - exists h, c. cbn. repeat split; auto; discriminate.
  - destruct (call_setter_spec s h c Hc)
      as (h1 & c1 & Hrun & Hc1 & Hk1 & Hkey1 & Hg1 & Hi1 & Hn1 & Him1).
    destruct (IH h1 c1 Hc1)
      as (h2 & c2 & Hrun2 & Hc2 & Hk2 & Hkey2 & Hg2 & Hi2 & Hn2 & Him2).
    exists h2, c2. cbn [call_setters existsb]. unfold mbind, M_bind. rewrite Hrun.
    split; [exact Hrun2 |]. split; [exact Hc2 |].
    split; [congruence |]. split; [congruence |].
    repeat split; try tauto.
    + intros [H | H]%orb_true_iff; auto.
    + intros [H | H]%orb_true_iff; auto.
Qed.

End Setters.

Section BuildFailures.

Context (env : Env) (b : ConfigBuilder) (l : loc) (Hb : config b = Some l).

Lemma Build_both (h : Heap) (c : Config) :
  configs h !! l = Some c ->
  newPkOpts c <> None -> importPkOpts c <> None ->
  Build env b h = Done (None, Some "cannot import and generate a new private key") h.
Proof using Hb.
  intros Hc Hn Hi. unfold Build. unfold_M. rewrite Hb, Hc.
  rewrite !bool_decide_eq_true_2 by assumption. reflexivity.
Qed.

End BuildFailures.

(* ===================================================================== *)
(** * The claims                                                          *)
(* ===================================================================== *)

(** ** C1: the key id *)

(** C1, counterexample.  A fresh builder on which only [WithKeyLength]
    was called, never [WithKeyId]: [Build] succeeds, and the key of the
    built configuration has the empty key id. *)
Lemma Build_succeeds_without_key_id :
  match call_setters fresh_builder [CallWithKeyLength 2048] fresh_builder_heap with
  | Done _ h1 =>
      exists h' k,
        Build fixture_env fresh_builder h1 = Done (Some 1%positive, None) h' /\
        keys h' !! 1%positive = Some k /\
        configs h' !! 1%positive
          = Some (mkConfig (Some 1%positive) (Some (mkNewKeyOptions EmptyString 2048)) None) /\
        jwk.KeyID k = EmptyString
  | Panic _ => False
  end.
Proof.
  vm_compute. eexists _, _. repeat split.
Qed.

(** C1, as amended.  [Build] does not look at the key id: when it
    succeeds, the key of the built configuration carries as [kid] the
    [keyId] of the options structure of the selected source, whatever it
    is; it is the empty string when [WithKeyId] was never called. *)
Theorem Build_kid_is_configured_key_id
    (env : Env) (b : ConfigBuilder) (h h' : Heap) (p : pointer) :
  Build env b h = Done (p, None) h' ->
  exists l c o c' pk k,
    p = Some l /\ configs h !! l = Some c /\ selected c = Some o /\
    configs h' !! l = Some c' /\ key c' = Some pk /\ keys h' !! pk = Some k /\
    jwk.keyID k = Some (KeyId o) /\ jwk.KeyID k = KeyId o.
Proof.
  intros HB.
  apply Build_success in HB as (l & c & o & k0 & n & e & -> & Hb & Hc & Hs & Hk & Hm & ->).
  exists l, c, o. eexists _, _, _.
  split; [reflexivity |]. split; [exact Hc |]. split; [exact Hs |].
  split; [apply installed_config |]. split; [reflexivity |].
  split; [apply installed_key |]. split; reflexivity.
Qed.

Lemma Build_kid_is_configured_key_id_witness :
  Build fixture_env fresh_builder import_configured_heap
    = Done (Some 1%positive, None) built_heap /\
  exists l c o c' pk k,
    Some 1%positive = Some l /\ configs import_configured_heap !! l = Some c /\
    selected c = Some o /\
    configs built_heap !! l = Some c' /\ key c' = Some pk /\
    keys built_heap !! pk = Some k /\
    jwk.keyID k = Some (KeyId o) /\ jwk.KeyID k = KeyId o.
Proof.
  split; [vm_compute; reflexivity |].
  apply (Build_kid_is_configured_key_id fixture_env fresh_builder).
  vm_compute. reflexivity.
Defined.

(** ** C2: failures at request time *)



(** ** C3: the document *)

(** C3.  For every configuration that [Build] returned with no error, the
    handler answers every request with status 200 and the JSON document
    with the single member [keys], an array of exactly one entry: [kty]
    is RSA, [alg] is RS256, [use] is sig, [kid] is the key id of the
    selected options, and [e] and [n] are the unpadded base64url
    encodings of the exponent and modulus bytes of the key the source
    yielded; for a generated key these are the big-endian bytes of the
    numbers [E] and [N]. *)
Theorem Jkws_serves_document
    (env : Env) (b : ConfigBuilder) (h h' : Heap) (l : loc) (c : Config) :
  Build env b h = Done (Some l, None) h' ->
  configs h' !! l = Some c ->
  exists c0 o k0 n e,
    configs h !! l = Some c0 /\ selected c0 = Some o /\
    source_key env o = Some k0 /\ jwk.material k0 = jwk.rsaPrivateKey n e /\
    (forall no raw, o = NewOpts no -> rsa_GenerateKey env (bits no) = inl raw ->
       n = big.Int_Bytes (rsa.N raw) /\ e = big.Int_Bytes (rsa.E raw)) /\
    forall ctx,
      Jkws c ctx h' =
        Done (gin.mkContext (gin.request ctx)
                (Some {| gin.Status := 200;
                         gin.ContentType := "application/json; charset=utf-8";
                         gin.Body := json.Marshal
                           (json.Obj [("keys", json.Arr [json.Obj
                              [("kty", json.Str "RSA");
                               ("alg", json.Str "RS256");
                               ("e", json.Str (base64.RawURLEncoding_EncodeToString e));
                               ("n", json.Str (base64.RawURLEncoding_EncodeToString n));
                               ("use", json.Str "sig");
                               ("kid", json.Str (KeyId o))]])]) |})) h'.
Proof.
  intros HB Hc.
  apply Build_success in HB as (l' & c0 & o & k0 & n & e & [= <-] & Hb & Hc0 & Hs & Hk & Hm & ->).
  rewrite installed_config in Hc. injection Hc as <-.
  exists c0, o, k0, n, e. repeat (split; [assumption |]). split.
  - intros no raw -> Hgen. cbn in Hk. unfold generatePrivateKey in Hk.
    rewrite Hgen in Hk. cbn in Hk. injection Hk as <-. cbn in Hm.
    injection Hm as <- <-. split; reflexivity.
  - intros ctx.
    rewrite (Jkws_installed h l c0 k0 (KeyId o) n e ctx Hm).
    reflexivity.
Qed.

Lemma Jkws_serves_document_witness :
  Build fixture_env fresh_builder import_configured_heap
    = Done (Some 1%positive, None) built_heap /\
  configs built_heap !! 1%positive = Some built_config /\
  exists c0 o k0 n e,
    configs import_configured_heap !! 1%positive = Some c0 /\ selected c0 = Some o /\
    source_key fixture_env o = Some k0 /\ jwk.material k0 = jwk.rsaPrivateKey n e /\
    (forall no raw, o = NewOpts no -> rsa_GenerateKey fixture_env (bits no) = inl raw ->
       n = big.Int_Bytes (rsa.N raw) /\ e = big.Int_Bytes (rsa.E raw)) /\
    forall ctx,
      Jkws built_config ctx built_heap =
        Done (gin.mkContext (gin.request ctx)
                (Some {| gin.Status := 200;
                         gin.ContentType := "application/json; charset=utf-8";
                         gin.Body := json.Marshal
                           (json.Obj [("keys", json.Arr [json.Obj
                              [("kty", json.Str "RSA");
                               ("alg", json.Str "RS256");
                               ("e", json.Str (base64.RawURLEncoding_EncodeToString e));
                               ("n", json.Str (base64.RawURLEncoding_EncodeToString n));
                               ("use", json.Str "sig");
                               ("kid", json.Str (KeyId o))]])]) |})) built_heap.
Proof.
  split; [vm_compute; reflexivity |]. split; [vm_compute; reflexivity |].
  apply (Jkws_serves_document fixture_env fresh_builder
           import_configured_heap built_heap 1%positive built_config).
  - vm_compute. reflexivity.
  - vm_compute. reflexivity.
Defined.

(** ** C4, C5, C6, C10: the ways [Build] fails *)

(** C4.  When both a new-key option and an import option are set, [Build]
    fails with the error that both sources were selected, returns no
    configuration and leaves the heap, hence the key pointer of the
    configuration, as it was.  This holds for the setter calls in any
    order: after any sequence of calls that contains a setter of each
    facet, [Build] fails in this way and the key pointer is the one from
    before the calls. *)
Theorem Build_rejects_both_sources
    (env : Env) (b : ConfigBuilder) (l : loc) (h : Heap) (c : Config) :
  config b = Some l ->
  configs h !! l = Some c ->
  (newPkOpts c <> None -> importPkOpts c <> None ->
   Build env b h = Done (None, Some "cannot import and generate a new private key") h)
  /\
  (forall ss : list Setter,
     existsb generation_setter ss = true ->
     existsb import_setter ss = true ->
     exists h1 c1,
       call_setters b ss h = Done tt h1 /\
       configs h1 !! l = Some c1 /\ key c1 = key c /\ keys h1 = keys h /\
       Build env b h1
         = Done (None, Some "cannot import and generate a new private key") h1).
Proof.
  intros Hb Hc. split.
  - intros Hn Hi. now apply (Build_both env b l Hb h c).
  - intros ss Hg Hi.
    destruct (call_setters_spec b l Hb ss h c Hc)
      as (h1 & c1 & Hrun & Hc1 & Hk & Hkey & Hg1 & Hi1 & _).
    exists h1, c1. repeat (split; [assumption |]).
    apply (Build_both env b l Hb h1 c1); auto.
Qed.

Lemma Build_rejects_both_sources_witness :
  Build fixture_env fresh_builder
    (heap_after (call_setters fresh_builder
                   [CallWithPath "x"; CallNewWithKeyId "k"; CallWithKeyLength 2048])
                fresh_builder_heap)
  = Done (None, Some "cannot import and generate a new private key")
      (heap_after (call_setters fresh_builder
                     [CallWithPath "x"; CallNewWithKeyId "k"; CallWithKeyLength 2048])
                  fresh_builder_heap).
Proof.
  destruct (Build_rejects_both_sources fixture_env fresh_builder 1%positive
              fresh_builder_heap (mkConfig None None None) eq_refl eq_refl)
    as [_ Hseq].
  destruct (Hseq [CallWithPath "x"; CallNewWithKeyId "k"; CallWithKeyLength 2048]
              eq_refl eq_refl) as (h1 & c1 & Hrun & _ & _ & _ & HB).
  unfold heap_after. rewrite Hrun. exact HB.
Defined.

(** C5.  When neither a new-key option nor an import option is set,
    [Build] fails with the error that asks to generate or import a key,
    returns no configuration and leaves the heap as it was. *)
Theorem Build_rejects_no_source
    (env : Env) (b : ConfigBuilder) (l : loc) (h : Heap) (c : Config) :
  config b = Some l ->
  configs h !! l = Some c ->
  newPkOpts c = None -> importPkOpts c = None ->
  Build env b h = Done (None, Some "generate or import a private key") h.
Proof.
  intros Hb Hc Hn Hi. unfold Build, Build_generate, Build_import. unfold_M.
  rewrite Hb, Hc, Hn, Hi. reflexivity.
Qed.

Lemma Build_rejects_no_source_witness :
  Build fixture_env fresh_builder fresh_builder_heap
  = Done (None, Some "generate or import a private key") fresh_builder_heap.
Proof.
  apply (Build_rejects_no_source fixture_env fresh_builder 1%positive
           fresh_builder_heap (mkConfig None None None)); reflexivity.
Defined.

(** C6, counterexample.  A file that is not a PEM-encoded private key
    but an RSA public key, which the parser accepts: [Build] fails, but
    not with the parse error; it fails at the type assertion, with the
    error that names the type of the key. *)
Lemma Build_refuses_public_key_at_type_check :
  Build public_key_env fresh_builder public_key_configured_heap
  = Done (None, Some "expected jwk.SymmetricKey, got *jwk.rsaPublicKey")
         public_key_configured_heap /\
  forall err : error,
    Build public_key_env fresh_builder public_key_configured_heap
    <> Done (None, Some (Errorf "cannot import private key "
                           (Errorf "cannot parse private key " err EmptyString)
                           EmptyString))
            public_key_configured_heap.
Proof.
  assert (HB : Build public_key_env fresh_builder public_key_configured_heap
               = Done (None, Some "expected jwk.SymmetricKey, got *jwk.rsaPublicKey")
                      public_key_configured_heap)
    by (vm_compute; reflexivity).
  split; [exact HB |].
  intros err H. rewrite HB in H. injection H as H. discriminate H.
Qed.

(** C6, as amended.  With the import source alone configured: when the
    file at the configured path cannot be read, [Build] fails with the
    error of [importPrivateKey] for an unreadable file; when the file is
    read and the parser rejects its content, [Build] fails with the
    error for an unparsable key; when the content parses to a key that
    is not an RSA private key (a public key, a key of another family),
    [Build] fails with the error that names the type of the key.  In
    each case it returns no configuration and leaves the heap as it
    was. *)
Theorem Build_reports_import_failures
    (env : Env) (b : ConfigBuilder) (l : loc) (h : Heap) (c : Config)
    (o : ImportKeyOptions) :
  config b = Some l ->
  configs h !! l = Some c ->
  newPkOpts c = None -> importPkOpts c = Some o ->
  (forall err,
     ioutil_ReadFile env (privateKeyPemPath o) = inr err ->
     Build env b h
     = Done (None, Some (Errorf "cannot import private key "
                           (Errorf "cannot read private key " err EmptyString)
                           EmptyString)) h)
  /\
  (forall keyData err,
     ioutil_ReadFile env (privateKeyPemPath o) = inl keyData ->
     jwk_ParseKey_WithPEM env keyData = inr err ->
     Build env b h
     = Done (None, Some (Errorf "cannot import private key "
                           (Errorf "cannot parse private key " err EmptyString)
                           EmptyString)) h)
  /\
  (forall keyData k,
     ioutil_ReadFile env (privateKeyPemPath o) = inl keyData ->
     jwk_ParseKey_WithPEM env keyData = inl k ->
     jwk.is_RSAPrivateKey k = false ->
     Build env b h
     = Done (None, Some (Errorf "expected jwk.SymmetricKey, got " (jwk.TypeName k)
                           EmptyString)) h).
Proof.
  intros Hb Hc Hn Hi. split; [| split].
  - intros err Hread.
    unfold Build, Build_generate, Build_import, importPrivateKey. unfold_M.
    rewrite Hb, Hc, Hn, Hi, Hread. reflexivity.
  - intros keyData err Hread Hparse.
    unfold Build, Build_generate, Build_import, importPrivateKey. unfold_M.
    rewrite Hb, Hc, Hn, Hi, Hread, Hparse. reflexivity.
  - intros keyData k Hread Hparse Hrsa.
    unfold Build, Build_generate, Build_import, importPrivateKey. unfold_M.
    rewrite Hb, Hc, Hn, Hi, Hread, Hparse. cbn.
    unfold jwk.is_RSAPrivateKey in *. cbn. rewrite Hrsa. reflexivity.
Qed.

Lemma Build_reports_import_failures_witness :
  Build fixture_env fresh_builder
    (heap_after (call_setters fresh_builder [CallWithPath "missing.pem"]) fresh_builder_heap)
  = Done (None,
          Some "cannot import private key cannot read private key open missing.pem: no such file or directory")
      (heap_after (call_setters fresh_builder [CallWithPath "missing.pem"]) fresh_builder_heap)
  /\
  Build fixture_env fresh_builder
    (heap_after (call_setters fresh_builder [CallWithPath "../testdata/notes.txt"])
                fresh_builder_heap)
  = Done (None,
          Some "cannot import private key cannot parse private key failed to parse PEM encoded key: failed to decode PEM data")
      (heap_after (call_setters fresh_builder [CallWithPath "../testdata/notes.txt"])
                  fresh_builder_heap)
  /\
  Build public_key_env fresh_builder public_key_configured_heap
  = Done (None, Some "expected jwk.SymmetricKey, got *jwk.rsaPublicKey")
      public_key_configured_heap.
Proof.
  split; [| split].
  - exact (proj1 (Build_reports_import_failures fixture_env fresh_builder 1%positive
             (heap_after (call_setters fresh_builder [CallWithPath "missing.pem"])
                         fresh_builder_heap)
             (mkConfig None None (Some (mkImportKeyOptions EmptyString "missing.pem")))
             (mkImportKeyOptions EmptyString "missing.pem")
             eq_refl eq_refl eq_refl eq_refl)
           "open missing.pem: no such file or directory" eq_refl).
  - exact (proj1 (proj2 (Build_reports_import_failures fixture_env fresh_builder 1%positive
             (heap_after (call_setters fresh_builder [CallWithPath "../testdata/notes.txt"])
                         fresh_builder_heap)
             (mkConfig None None (Some (mkImportKeyOptions EmptyString "../testdata/notes.txt")))
             (mkImportKeyOptions EmptyString "../testdata/notes.txt")
             eq_refl eq_refl eq_refl eq_refl))
           (bytes_of_string "hello")
           "failed to parse PEM encoded key: failed to decode PEM data" eq_refl eq_refl).
  - exact (proj2 (proj2 (Build_reports_import_failures public_key_env fresh_builder 1%positive
             public_key_configured_heap
             (mkConfig None None (Some (mkImportKeyOptions "my-id" "../testdata/public.pem")))
             (mkImportKeyOptions "my-id" "../testdata/public.pem")
             eq_refl eq_refl eq_refl eq_refl))
           (bytes_of_string "PUBLIC KEY") fixture_public_key eq_refl eq_refl eq_refl).
Defined.

(** C10.  Whenever [Build] returns an error, the configuration it returns
    is nil and the heap is the one it started from: the [key] field of
    the configuration is not assigned and no key cell is allocated. *)
Theorem Build_error_installs_nothing
    (env : Env) (b : ConfigBuilder) (h h' : Heap) (p : pointer) (err : error) :
  Build env b h = Done (p, Some err) h' ->
  p = None /\ h' = h.
Proof.
  intros HB. apply Build_inv in HB as [(err' & [= -> _] & ->) | HB].
  - split; reflexivity.
  - destruct HB as (l & c & o & k0 & _ & _ & _ & _ & _ & [=] & _).
Qed.

Lemma Build_error_installs_nothing_witness :
  Build fixture_env fresh_builder fresh_builder_heap
    = Done (None, Some "generate or import a private key") fresh_builder_heap /\
  @None loc = None /\ fresh_builder_heap = fresh_builder_heap.
Proof.
  split; [reflexivity |].
  apply (Build_error_installs_nothing fixture_env fresh_builder fresh_builder_heap
           fresh_builder_heap None "generate or import a private key").
  reflexivity.
Defined.

(** ** C7, C8, C9: the published parameters *)

(** C7.  Whenever the exponent of the resolved key is 65537, that is the
    bytes 01 00 01, the entry the handler renders has AQAB as its [e];
    and for the fixture key, imported with the key id my-id, the body of
    the response is the expected document, byte for byte. *)
Theorem Jkws_exponent_65537_is_AQAB :
  big.Int_Bytes 65537 = [x01; x00; x01] /\
  (forall (config : Config) (h : Heap) (p : loc) (k : jwk.Key) (n : bytes)
          (ctx : gin.Context),
     key config = Some p -> keys h !! p = Some k ->
     jwk.material k = jwk.rsaPrivateKey n (big.Int_Bytes 65537) ->
     exists res,
       Jkws config ctx h = Done (gin.JSON ctx 200 (jwks_document res)) h /\
       PubKeyExponentKey res = "AQAB") /\
  result_of (example_import "../testdata/private.pem" "my-id" empty_heap)
  = Some (None,
          Some (gin.mkContext (gin.request fixture_request)
                  (Some {| gin.Status := 200;
                           gin.ContentType := "application/json; charset=utf-8";
                           gin.Body := fixture_document |}))).
Proof.
  split; [reflexivity |]. split.
  - intros config h p k n ctx Hp Hk Hm.
    eexists. split; [apply (Jkws_rsa config h p k n _ ctx Hp Hk Hm) |]. reflexivity.
  - vm_compute. reflexivity.
Qed.

Lemma Jkws_exponent_65537_is_AQAB_witness :
  exists res,
    Jkws built_config fixture_request built_heap
      = Done (gin.JSON fixture_request 200 (jwks_document res)) built_heap /\
    PubKeyExponentKey res = "AQAB".
Proof.
  exact (proj1 (proj2 Jkws_exponent_65537_is_AQAB)
           built_config built_heap 1%positive
           (with_metadata fixture_key "my-id") fixture_modulus fixture_request
           eq_refl eq_refl eq_refl).
Defined.

(** C8.  Decoding what [EncodeToString] wrote, as unpadded base64url,
    gives back the input, for every byte sequence; so the [e] and [n] of
    the entry the handler renders decode to the exponent and the modulus
    bytes of the resolved key. *)
Theorem EncodeToString_roundtrip :
  (forall src : bytes,
     base64.RawURLEncoding_DecodeString (EncodeToString src) = Some src) /\
  (forall (config : Config) (h : Heap) (p : loc) (k : jwk.Key) (n e : bytes)
          (ctx : gin.Context),
     key config = Some p -> keys h !! p = Some k ->
     jwk.material k = jwk.rsaPrivateKey n e ->
     exists res,
       Jkws config ctx h = Done (gin.JSON ctx 200 (jwks_document res)) h /\
       base64.RawURLEncoding_DecodeString (PubKeyExponentKey res) = Some e /\
       base64.RawURLEncoding_DecodeString (PubKeyModulusKey res) = Some n).
Proof.
  split.
  - intros src. apply DecodeString_EncodeToString.
  - intros config h p k n e ctx Hp Hk Hm.
    eexists. split; [apply (Jkws_rsa config h p k n e ctx Hp Hk Hm) |].
    split; apply DecodeString_EncodeToString.
Qed.

Lemma EncodeToString_roundtrip_witness :
  base64.RawURLEncoding_DecodeString (EncodeToString [x01; x00; x01])
    = Some [x01; x00; x01] /\
  exists res,
    Jkws built_config fixture_request built_heap
      = Done (gin.JSON fixture_request 200 (jwks_document res)) built_heap /\
    base64.RawURLEncoding_DecodeString (PubKeyExponentKey res) = Some [x01; x00; x01] /\
    base64.RawURLEncoding_DecodeString (PubKeyModulusKey res) = Some fixture_modulus.
Proof.
  split.
  - exact (proj1 EncodeToString_roundtrip [x01; x00; x01]).
  - exact (proj2 EncodeToString_roundtrip
             built_config built_heap 1%positive
             (with_metadata fixture_key "my-id") fixture_modulus [x01; x00; x01]
             fixture_request eq_refl eq_refl eq_refl).
Defined.

(** C9.  For every configuration that [Build] returned with no error
    there is one response that the handler gives to every request, at
    every invocation: the handler leaves the heap as it found it, and its
    response depends on nothing but the cell of the resolved key. *)
Theorem Jkws_deterministic
    (env : Env) (b : ConfigBuilder) (h h' : Heap) (l : loc) (c : Config) :
  Build env b h = Done (Some l, None) h' ->
  configs h' !! l = Some c ->
  exists p r,
    key c = Some p /\
    forall (ctx : gin.Context) (h'' : Heap),
      keys h'' !! p = keys h' !! p ->
      Jkws c ctx h'' = Done (gin.mkContext (gin.request ctx) (Some r)) h''.
Proof.
  intros HB Hc.
  apply Build_success in HB as (l' & c0 & o & k0 & n & e & [= <-] & Hb & Hc0 & Hs & Hk & Hm & ->).
  rewrite installed_config in Hc. injection Hc as <-.
  eexists _, _. split; [reflexivity |].
  intros ctx h'' Hsame. rewrite installed_key in Hsame.
  apply (Jkws_rsa _ h'' (fresh (dom (keys h))) (with_metadata k0 (KeyId o)) n e ctx);
    [reflexivity | exact Hsame | exact Hm].
Qed.

Lemma Jkws_deterministic_witness :
  exists p r,
    key built_config = Some p /\
    forall (ctx : gin.Context) (h'' : Heap),
      keys h'' !! p = keys built_heap !! p ->
      Jkws built_config ctx h'' = Done (gin.mkContext (gin.request ctx) (Some r)) h''.
Proof.
  apply (Jkws_deterministic fixture_env fresh_builder
           import_configured_heap built_heap 1%positive built_config).
  - vm_compute. reflexivity.
  - vm_compute. reflexivity.
Defined.

(* ===================================================================== *)
(** * Further properties: the builder                                     *)
(* ===================================================================== *)

Section HeapUpdates.

Context (h : Heap) (l : loc).

Lemma with_config_same (c : Config) :
  configs h !! l = Some c -> with_config h l c = h.
Proof.
  intros Hc. unfold with_config. rewrite insert_id by exact Hc.
  destruct h; reflexivity.
Qed.

Lemma with_config_twice (c1 c2 : Config) :
  with_config (with_config h l c1) l c2 = with_config h l c2.
Proof. unfold with_config. cbn. rewrite insert_insert_eq. reflexivity. Qed.

Lemma with_config_lookup (c : Config) : configs (with_config h l c) !! l = Some c.
Proof. unfold with_config. cbn. apply lookup_insert_eq. Qed.

Lemma with_config_other (c : Config) (l' : loc) :
  l' <> l -> configs (with_config h l c) !! l' = configs h !! l'.
Proof. intros Hne. unfold with_config. cbn. apply lookup_insert_ne. congruence. Qed.

End HeapUpdates.

Section SettersExactly.

Context (b : ConfigBuilder) (l : loc) (Hb : config b = Some l).

Lemma initiateNewOptsIfNil_exactly (h : Heap) (c : Config) :
  configs h !! l = Some c ->
  initiateNewOptsIfNil (NewPrivateKey b) h
  = Done tt (with_config h l (mkConfig (key c) (Some (new_options_or_zero c))
                                       (importPkOpts c))).
Proof using Hb.
  intros Hc. unfold initiateNewOptsIfNil, NewPrivateKey, new_options_or_zero. cbn.
  rewrite Hb. unfold mbind, M_bind. rewrite (load_config_ok l h c Hc).
  destruct (newPkOpts c) as [o |] eqn:Hn.
  - rewrite with_config_same; [reflexivity |].
    rewrite Hc. destruct c; cbn in *. congruence.
  - apply (store_config_ok l h c _ Hc).
Qed.

Lemma initiateImportOptsIfNil_exactly (h : Heap) (c : Config) :
  configs h !! l = Some c ->
  initiateImportOptsIfNil (ImportPrivateKey b) h
  = Done tt (with_config h l (mkConfig (key c) (newPkOpts c)
                                       (Some (import_options_or_zero c)))).
Proof using Hb.
  intros Hc. unfold initiateImportOptsIfNil, ImportPrivateKey, import_options_or_zero. cbn.
  rewrite Hb. unfold mbind, M_bind. rewrite (load_config_ok l h c Hc).
  destruct (importPkOpts c) as [o |] eqn:Hn.
  - rewrite with_config_same; [reflexivity |].
    rewrite Hc. destruct c; cbn in *. congruence.
  - apply (store_config_ok l h c _ Hc).
Qed.

(** Each setter replaces the configuration of the builder by its pure
    update, does nothing else, and returns its facet. *)
Lemma WithKeyLength_exactly (bits' : Z) (h : Heap) (c : Config) :
  configs h !! l = Some c ->
  WithKeyLength (NewPrivateKey b) bits' h
  = Done (NewPrivateKey b) (with_config h l (updated (CallWithKeyLength bits') c)).
Proof using Hb.
  intros Hc. unfold WithKeyLength, mbind, M_bind.
  rewrite (initiateNewOptsIfNil_exactly h c Hc).
  erewrite (assign_newPkOpts_spec b l Hb) by (try apply with_config_lookup; reflexivity).
  cbn. rewrite insert_insert_eq. reflexivity.
Qed.

Lemma New_WithKeyId_exactly (keyId : string) (h : Heap) (c : Config) :
  configs h !! l = Some c ->
  New_WithKeyId (NewPrivateKey b) keyId h
  = Done (NewPrivateKey b) (with_config h l (updated (CallNewWithKeyId keyId) c)).
Proof using Hb.
  intros Hc. unfold New_WithKeyId, mbind, M_bind.
  rewrite (initiateNewOptsIfNil_exactly h c Hc).
  erewrite (assign_newPkOpts_spec b l Hb) by (try apply with_config_lookup; reflexivity).
  cbn. rewrite insert_insert_eq. reflexivity.
Qed.

Lemma WithPath_exactly (path : string) (h : Heap) (c : Config) :
  configs h !! l = Some c ->
  WithPath (ImportPrivateKey b) path h
  = Done (ImportPrivateKey b) (with_config h l (updated (CallWithPath path) c)).
Proof using Hb.
  intros Hc. unfold WithPath, mbind, M_bind.
  rewrite (initiateImportOptsIfNil_exactly h c Hc).
  erewrite (assign_importPkOpts_spec b l Hb) by (try apply with_config_lookup; reflexivity).
  cbn. rewrite insert_insert_eq. reflexivity.
Qed.

Lemma Import_WithKeyId_exactly (keyId : string) (h : Heap) (c : Config) :
  configs h !! l = Some c ->
  Import_WithKeyId (ImportPrivateKey b) keyId h
  = Done (ImportPrivateKey b) (with_config h l (updated (CallImportWithKeyId keyId) c)).
Proof using Hb.
  intros Hc. unfold Import_WithKeyId, mbind, M_bind.
  rewrite (initiateImportOptsIfNil_exactly h c Hc).
  erewrite (assign_importPkOpts_spec b l Hb) by (try apply with_config_lookup; reflexivity).
  cbn. rewrite insert_insert_eq. reflexivity.
Qed.

Lemma call_setter_updated (s : Setter) (h : Heap) (c : Config) :
  configs h !! l = Some c ->
  call_setter b s h = Done tt (with_config h l (updated s c)).
Proof using Hb.
  intros Hc.
  destruct s as [bits' | keyId | path | keyId]; cbn [call_setter]; unfold mbind, M_bind.
  - rewrite (WithKeyLength_exactly bits' h c Hc). reflexivity.
  - rewrite (New_WithKeyId_exactly keyId h c Hc). reflexivity.
  - rewrite (WithPath_exactly path h c Hc). reflexivity.
  - rewrite (Import_WithKeyId_exactly keyId h c Hc). reflexivity.
Qed.

Lemma call_setters_updated (ss : list Setter) (h : Heap) (c : Config) :
  configs h !! l = Some c ->
  call_setters b ss h = Done tt (with_config h l (updated_by ss c)).
Proof using Hb.
  revert h c. induction ss as [| s ss IH]; intros h c Hc.
  - cbn. rewrite with_config_same by exact Hc. reflexivity.
  - cbn [call_setters updated_by fold_left]. unfold mbind, M_bind.
    rewrite (call_setter_updated s h c Hc).
    rewrite (IH _ (updated s c)) by apply with_config_lookup.
    rewrite with_config_twice. reflexivity.
Qed.

End SettersExactly.

Section PureUpdates.

Lemma updated_by_key (ss : list Setter) (c : Config) : key (updated_by ss c) = key c.
Proof.
  revert c. induction ss as [| s ss IH]; intros c; [reflexivity |].
  cbn [updated_by fold_left]. fold (updated_by ss (updated s c)). rewrite IH.
  destruct s; reflexivity.
Qed.

Lemma last_new_unset (ss : list Setter) (k : string) (n : Z) :
  existsb generation_setter ss = false ->
  last_new_keyId ss k = k /\ last_bits ss n = n.
Proof.
  induction ss as [| [bits' | keyId | path | keyId] ss IH]; cbn; intros H;
    try discriminate; auto.
Qed.

Lemma last_import_unset (ss : list Setter) (k p : string) :
  existsb import_setter ss = false ->
  last_import_keyId ss k = k /\ last_path ss p = p.
Proof.
  induction ss as [| [bits' | keyId | path | keyId] ss IH]; cbn; intros H;
    try discriminate; auto.
Qed.

(** The options after a sequence of calls: the arguments of the last
    call of each setter, over the options the sequence started from. *)
Lemma updated_by_newPkOpts (ss : list Setter) (c : Config) :
  newPkOpts (updated_by ss c)
  = if existsb generation_setter ss
    then Some (mkNewKeyOptions
                 (last_new_keyId ss (new_keyId (new_options_or_zero c)))
                 (last_bits ss (bits (new_options_or_zero c))))
    else newPkOpts c.
Proof.
  revert c.
  induction ss as [| [bits' | keyId | path | keyId] ss IH]; intros c; [reflexivity | ..].
  all: cbn [updated_by fold_left existsb last_new_keyId last_bits generation_setter orb].
  all: fold (updated_by ss); fold (last_new_keyId ss); fold (last_bits ss).
  all: rewrite IH; cbn.
  all: destruct (existsb generation_setter ss) eqn:Hex; try reflexivity.
  all: rewrite (proj1 (last_new_unset ss _ 0 Hex)),
               (proj2 (last_new_unset ss EmptyString _ Hex)).
  all: reflexivity.
Qed.

Lemma updated_by_importPkOpts (ss : list Setter) (c : Config) :
  importPkOpts (updated_by ss c)
  = if existsb import_setter ss
    then Some (mkImportKeyOptions
                 (last_import_keyId ss (import_keyId (import_options_or_zero c)))
                 (last_path ss (privateKeyPemPath (import_options_or_zero c))))
    else importPkOpts c.
Proof.
  revert c.
  induction ss as [| [bits' | keyId | path | keyId] ss IH]; intros c; [reflexivity | ..].
  all: cbn [updated_by fold_left existsb last_import_keyId last_path import_setter orb].
  all: fold (updated_by ss); fold (last_import_keyId ss); fold (last_path ss).
  all: rewrite IH; cbn.
  all: destruct (existsb import_setter ss) eqn:Hex; try reflexivity.
  all: rewrite (proj1 (last_import_unset ss _ EmptyString Hex)),
               (proj2 (last_import_unset ss EmptyString _ Hex)).
  all: reflexivity.
Qed.

End PureUpdates.

(** The handler reads one cell: heaps that agree on it give one result. *)
Lemma Jkws_depends_on_key_cell (cfg : Config) (ctx : gin.Context) (h1 h2 : Heap) (p : loc) :
  key cfg = Some p ->
  keys h1 !! p = keys h2 !! p ->
  result_of (Jkws cfg ctx h1) = result_of (Jkws cfg ctx h2).
Proof.
  intros Hp Hsame. unfold Jkws. unfold_M. rewrite Hp, Hsame.
  destruct (keys h2 !! p) as [k |]; [| reflexivity].
  destruct (jwk.PublicKey k) as [[pk |] err]; [| reflexivity].
  unfold assert_bytes. unfold_M.
  destruct (jwk.Get k "e") as [[] |]; try reflexivity.
  destruct (jwk.Get k "n") as [[] |]; reflexivity.
Qed.

Lemma setters_update_one_configuration_at
    (b : ConfigBuilder) (l : loc) (h : Heap) (c : Config) (ss : list Setter) :
  config b = Some l ->
  configs h !! l = Some c ->
  exists h1,
    call_setters b ss h = Done tt h1 /\
    configs h1 !! l = Some (updated_by ss c) /\
    key (updated_by ss c) = key c /\
    keys h1 = keys h /\
    forall l', l' <> l -> configs h1 !! l' = configs h !! l'.
Proof.
  intros Hb Hc. exists (with_config h l (updated_by ss c)).
  split; [apply (call_setters_updated b l Hb ss h c Hc) |].
  split; [apply with_config_lookup |].
  split; [apply updated_by_key |].
  split; [reflexivity |].
  intros l' Hne. now apply with_config_other.
Qed.

(** X1.  A sequence of setter calls on a builder whose configuration is
    allocated does not panic and replaces that one configuration by its
    pure update: the key pointer of the configuration, every other
    configuration and all key cells are as before. *)
Theorem setters_update_one_configuration
    (b : ConfigBuilder) (l : loc) (h : Heap) (c : Config) (ss : list Setter) :
  config b = Some l ->
  configs h !! l = Some c ->
  exists h1,
    call_setters b ss h = Done tt h1 /\
    configs h1 !! l = Some (updated_by ss c) /\
    key (updated_by ss c) = key c /\
    keys h1 = keys h /\
    forall l', l' <> l -> configs h1 !! l' = configs h !! l'.
Proof.
  intros Hb Hc. now apply setters_update_one_configuration_at.
Qed.

Lemma setters_update_one_configuration_witness :
  exists h1,
    call_setters fresh_builder [CallWithKeyLength 2048; CallNewWithKeyId "my-id"]
                 fresh_builder_heap = Done tt h1 /\
    configs h1 !! 1%positive
      = Some (updated_by [CallWithKeyLength 2048; CallNewWithKeyId "my-id"]
                         (mkConfig None None None)) /\
    key (updated_by [CallWithKeyLength 2048; CallNewWithKeyId "my-id"]
                    (mkConfig None None None)) = None /\
    keys h1 = keys fresh_builder_heap /\
    forall l', l' <> 1%positive -> configs h1 !! l' = configs fresh_builder_heap !! l'.
Proof.
  exact (setters_update_one_configuration fresh_builder 1%positive fresh_builder_heap
           (mkConfig None None None)
           [CallWithKeyLength 2048; CallNewWithKeyId "my-id"] eq_refl eq_refl).
Defined.

(** X2.  After any sequence of setter calls, in any interleaving, the
    options of a facet hold the arguments of the last call of each of its
    setters; a field whose setter was not called keeps the value it had,
    which is the zero value on a fresh builder; the options of a facet
    none of whose setters was called stay as they were (nil on a fresh
    builder). *)
Theorem setters_keep_last_arguments
    (b : ConfigBuilder) (l : loc) (h : Heap) (c : Config) (ss : list Setter) :
  config b = Some l ->
  configs h !! l = Some c ->
  exists h1 c1,
    call_setters b ss h = Done tt h1 /\ configs h1 !! l = Some c1 /\
    newPkOpts c1
    = (if existsb generation_setter ss
       then Some (mkNewKeyOptions
                    (last_new_keyId ss (new_keyId (new_options_or_zero c)))
                    (last_bits ss (bits (new_options_or_zero c))))
       else newPkOpts c) /\
    importPkOpts c1
    = (if existsb import_setter ss
       then Some (mkImportKeyOptions
                    (last_import_keyId ss (import_keyId (import_options_or_zero c)))
                    (last_path ss (privateKeyPemPath (import_options_or_zero c))))
       else importPkOpts c).
Proof.
  intros Hb Hc.
  exists (with_config h l (updated_by ss c)), (updated_by ss c).
  split; [apply (call_setters_updated b l Hb ss h c Hc) |].
  split; [apply with_config_lookup |].
  split; [apply updated_by_newPkOpts | apply updated_by_importPkOpts].
Qed.

Lemma setters_keep_last_arguments_witness :
  exists h1 c1,
    call_setters fresh_builder
      [CallNewWithKeyId "a"; CallWithKeyLength 1024; CallNewWithKeyId "b";
       CallWithKeyLength 2048] fresh_builder_heap = Done tt h1 /\
    configs h1 !! 1%positive = Some c1 /\
    newPkOpts c1 = Some (mkNewKeyOptions "b" 2048) /\
    importPkOpts c1 = None.
Proof.
  exact (setters_keep_last_arguments fresh_builder 1%positive fresh_builder_heap
           (mkConfig None None None)
           [CallNewWithKeyId "a"; CallWithKeyLength 1024; CallNewWithKeyId "b";
            CallWithKeyLength 2048] eq_refl eq_refl).
Defined.

(** X3.  Two builders made by [NewConfigBuilder] do not share their
    configuration: whatever setters are called on the first, the second
    one still has no source selected, and [Build] on it fails with the
    no-source error. *)
Theorem builders_are_independent (env : Env) (h : Heap) (ss : list Setter) :
  exists b1 b2 h1,
    (b1 ← NewConfigBuilder; b2 ← NewConfigBuilder;
     _ ← call_setters b1 ss; mret (b1, b2)) h = Done (b1, b2) h1 /\
    config b1 <> config b2 /\
    Build env b2 h1 = Done (None, Some "generate or import a private key") h1.
Proof.
  set (l1 := fresh (dom (configs h))).
  set (h0 := mkHeap (<[l1 := mkConfig None None None]> (configs h)) (keys h)).
  set (l2 := fresh (dom (configs h0))).
  set (h0' := mkHeap (<[l2 := mkConfig None None None]> (configs h0)) (keys h0)).
  assert (Hne : l2 <> l1).
  { intros Heq. pose proof (is_fresh (dom (configs h0))) as Hf. fold l2 in Hf.
    apply Hf. apply elem_of_dom. rewrite Heq. unfold h0. cbn.
    rewrite lookup_insert_eq. eauto. }
  assert (H1 : configs h0' !! l1 = Some (mkConfig None None None)).
  { unfold h0'. cbn. rewrite lookup_insert_ne by exact Hne. unfold h0. cbn.
    apply lookup_insert_eq. }
  assert (H2 : configs h0' !! l2 = Some (mkConfig None None None)).
  { unfold h0'. cbn. apply lookup_insert_eq. }
  destruct (setters_update_one_configuration_at (mkConfigBuilder (Some l1)) l1 h0'
              (mkConfig None None None) ss eq_refl H1)
    as (h1 & Hrun & _ & _ & _ & Hother).
  exists (mkConfigBuilder (Some l1)), (mkConfigBuilder (Some l2)), h1.
  split.
  - unfold NewConfigBuilder, new_config, mbind, M_bind, mret, M_ret.
    fold l1. fold h0. fold l2. fold h0'. rewrite Hrun. reflexivity.
  - split; [cbn; congruence |].
    unfold Build, Build_generate, Build_import. unfold_M. cbn [config].
    rewrite Hother by exact Hne. rewrite H2. reflexivity.
Qed.

(** X4.  The setters panic exactly on a builder without configuration.
    On a builder whose configuration is allocated no sequence of setter
    calls panics: the options pointer of a facet is never nil where a
    field of it is assigned, since the setter initialises it first.  On
    the zero builder, whose configuration pointer is nil, every setter
    panics with a nil dereference, and so does [Build], at its first
    statement and whatever the environment is. *)
Theorem setters_panic_only_without_configuration
    (b : ConfigBuilder) (h : Heap) (ss : list Setter) :
  (forall l c, config b = Some l -> configs h !! l = Some c ->
     exists h1, call_setters b ss h = Done tt h1) /\
  (config b = None ->
     (forall s, call_setter b s h = Panic nil_dereference) /\
     (forall env, Build env b h = Panic nil_dereference)).
Proof.
  split.
  - intros l c Hb Hc.
    destruct (setters_update_one_configuration_at b l h c ss Hb Hc)
      as (h1 & Hrun & _).
    exists h1. exact Hrun.
  - intros Hb. split.
    + intros [bits' | keyId | path | keyId]; cbn [call_setter];
        unfold WithKeyLength, New_WithKeyId, WithPath, Import_WithKeyId,
          initiateNewOptsIfNil, initiateImportOptsIfNil, NewPrivateKey, ImportPrivateKey;
        unfold_M; cbn; rewrite Hb; reflexivity.
    + intros env. unfold Build. unfold_M. rewrite Hb. reflexivity.
Qed.

Lemma setters_panic_only_without_configuration_witness :
  (exists h1,
     call_setters fresh_builder
       [CallWithPath "missing.pem"; CallWithKeyLength 4611686018427387904]
       fresh_builder_heap = Done tt h1) /\
  call_setter (mkConfigBuilder None) (CallWithKeyLength 2048) empty_heap
    = Panic nil_dereference /\
  Build fixture_env (mkConfigBuilder None) empty_heap = Panic nil_dereference.
Proof.
  split; [| split].
  - exact (proj1 (setters_panic_only_without_configuration fresh_builder fresh_builder_heap
                    [CallWithPath "missing.pem"; CallWithKeyLength 4611686018427387904])
             1%positive (mkConfig None None None) eq_refl eq_refl).
  - exact (proj1 (proj2 (setters_panic_only_without_configuration
                           (mkConfigBuilder None) empty_heap []) eq_refl)
             (CallWithKeyLength 2048)).
  - exact (proj2 (proj2 (setters_panic_only_without_configuration
                           (mkConfigBuilder None) empty_heap []) eq_refl)
             fixture_env).
Defined.

Section GenerationSource.

Context (env : Env) (b : ConfigBuilder) (l : loc) (h : Heap) (c : Config)
        (o : NewKeyOptions).
Context (Hb : config b = Some l) (Hc : configs h !! l = Some c).
Context (Hn : newPkOpts c = Some o) (Hi : importPkOpts c = None).

Lemma Build_generation_ok (raw : rsa.PrivateKey) :
  rsa_GenerateKey env (bits o) = inl raw ->
  Build env b h
  = Done (Some l, None)
      (installed h l c
         (jwk.mkKey (jwk.rsaPrivateKey (big.Int_Bytes (rsa.N raw))
                                       (big.Int_Bytes (rsa.E raw)))
                    (Some (new_keyId o)) (Some "sig"))).
Proof using Hb Hc Hn Hi.
  intros Hgen.
  apply (Build_succeeds env b h l c (NewOpts o)
           (jwk.mkKey (jwk.rsaPrivateKey (big.Int_Bytes (rsa.N raw))
                                         (big.Int_Bytes (rsa.E raw))) None None));
    try assumption; try reflexivity.
  - unfold selected. rewrite Hn, Hi. reflexivity.
  - cbn. unfold generatePrivateKey. rewrite Hgen. reflexivity.
Qed.

Lemma Build_generation_error (err : error) :
  rsa_GenerateKey env (bits o) = inr err ->
  Build env b h
  = Done (None,
          Some (Errorf "cannot generate new private key "
                  (Errorf "failed to generate new RSA private key: " err LF)
                  EmptyString)) h.
Proof using Hb Hc Hn Hi.
  intros Hgen.
  unfold Build, Build_generate, Build_import, generatePrivateKey. unfold_M.
  rewrite Hb, Hc, Hn, Hi, Hgen. reflexivity.
Qed.

End GenerationSource.

(** X5.  With the generation source alone configured, [Build] passes the
    configured bit length to [rsa.GenerateKey] unchecked and does what
    the generator answers: a generated key is installed as an RSA private
    key with the big-endian bytes of [N] and [E], the configured key id
    and the usage sig; a generator error comes back wrapped in the two
    messages of [generatePrivateKey] and [Build], with no configuration
    and the heap untouched. *)
Theorem Build_generation
    (env : Env) (b : ConfigBuilder) (l : loc) (h : Heap) (c : Config)
    (o : NewKeyOptions) :
  config b = Some l ->
  configs h !! l = Some c ->
  newPkOpts c = Some o -> importPkOpts c = None ->
  (forall raw,
     rsa_GenerateKey env (bits o) = inl raw ->
     Build env b h
     = Done (Some l, None)
         (installed h l c
            (jwk.mkKey (jwk.rsaPrivateKey (big.Int_Bytes (rsa.N raw))
                                          (big.Int_Bytes (rsa.E raw)))
                       (Some (new_keyId o)) (Some "sig"))))
  /\
  (forall err,
     rsa_GenerateKey env (bits o) = inr err ->
     Build env b h
     = Done (None,
             Some (Errorf "cannot generate new private key "
                     (Errorf "failed to generate new RSA private key: " err LF)
                     EmptyString)) h).
Proof.
  intros Hb Hc Hn Hi. split.
  - intros raw Hgen. now apply (Build_generation_ok env b l h c o).
  - intros err Hgen. now apply (Build_generation_error env b l h c o).
Qed.

Lemma Build_generation_witness :
  Build fixture_env fresh_builder
    (heap_after (call_setters fresh_builder [CallWithKeyLength 512]) fresh_builder_heap)
  = Done (None,
          Some (Errorf "cannot generate new private key "
                  (Errorf "failed to generate new RSA private key: "
                          "crypto/rsa: unsupported key size" LF)
                  EmptyString))
      (heap_after (call_setters fresh_builder [CallWithKeyLength 512]) fresh_builder_heap).
Proof.
  exact (proj2 (Build_generation fixture_env fresh_builder 1%positive
                  (heap_after (call_setters fresh_builder [CallWithKeyLength 512])
                              fresh_builder_heap)
                  (mkConfig None (Some (mkNewKeyOptions EmptyString 512)) None)
                  (mkNewKeyOptions EmptyString 512)
                  eq_refl eq_refl eq_refl eq_refl)
           "crypto/rsa: unsupported key size" eq_refl).
Defined.

(** X6.  With the import source alone configured and a file that parses
    to a key, [Build] decides on the type of the key: an RSA private key
    is installed with the configured key id and the usage sig, replacing
    any the parsed key carried; any other key (an RSA public key or a key
    of another family) is refused with the error that names its type,
    with no configuration and the heap untouched. *)
Theorem Build_import_checks_key_type
    (env : Env) (b : ConfigBuilder) (l : loc) (h : Heap) (c : Config)
    (o : ImportKeyOptions) (keyData : bytes) (k : jwk.Key) :
  config b = Some l ->
  configs h !! l = Some c ->
  newPkOpts c = None -> importPkOpts c = Some o ->
  ioutil_ReadFile env (privateKeyPemPath o) = inl keyData ->
  jwk_ParseKey_WithPEM env keyData = inl k ->
  (jwk.is_RSAPrivateKey k = true ->
   Build env b h
   = Done (Some l, None)
       (installed h l c (jwk.mkKey (jwk.material k) (Some (import_keyId o)) (Some "sig"))))
  /\
  (jwk.is_RSAPrivateKey k = false ->
   Build env b h
   = Done (None, Some (Errorf "expected jwk.SymmetricKey, got " (jwk.TypeName k) EmptyString))
       h).
Proof.
  intros Hb Hc Hn Hi Hread Hparse. split.
  - intros Hrsa.
    apply (Build_succeeds env b h l c (ImportOpts o) k); try assumption.
    + unfold selected. rewrite Hn, Hi. reflexivity.
    + cbn. unfold importPrivateKey. rewrite Hread, Hparse. reflexivity.
  - intros Hrsa.
    unfold Build, Build_generate, Build_import, importPrivateKey. unfold_M.
    rewrite Hb, Hc, Hn, Hi, Hread, Hparse. cbn.
    unfold jwk.is_RSAPrivateKey in *. cbn. rewrite Hrsa. reflexivity.
Qed.

Lemma Build_import_checks_key_type_witness :
  Build fixture_env fresh_builder
    (heap_after (call_setters fresh_builder [CallWithPath "../testdata/ec.pem"])
                fresh_builder_heap)
  = Done (None, Some "expected jwk.SymmetricKey, got *jwk.ecdsaPrivateKey")
      (heap_after (call_setters fresh_builder [CallWithPath "../testdata/ec.pem"])
                  fresh_builder_heap).
Proof.
  exact (proj2 (Build_import_checks_key_type fixture_env fresh_builder 1%positive
                  (heap_after (call_setters fresh_builder [CallWithPath "../testdata/ec.pem"])
                              fresh_builder_heap)
                  (mkConfig None None (Some (mkImportKeyOptions EmptyString "../testdata/ec.pem")))
                  (mkImportKeyOptions EmptyString "../testdata/ec.pem")
                  (bytes_of_string "EC PRIVATE KEY") fixture_ec_key
                  eq_refl eq_refl eq_refl eq_refl eq_refl eq_refl)
           eq_refl).
Defined.

(** X7.  A successful [Build] returns the builder's own configuration
    pointer, keeps both option structures of the configuration, and puts
    the key into a cell that was not in use: every key cell that existed
    keeps its key, and every other configuration is as before. *)
Theorem Build_success_frame
    (env : Env) (b : ConfigBuilder) (h h' : Heap) (p : pointer) :
  Build env b h = Done (p, None) h' ->
  p = config b /\
  exists l c c' kp k,
    p = Some l /\ configs h !! l = Some c /\ configs h' !! l = Some c' /\
    newPkOpts c' = newPkOpts c /\ importPkOpts c' = importPkOpts c /\
    key c' = Some kp /\ keys h !! kp = None /\ keys h' !! kp = Some k /\
    (forall p' k', keys h !! p' = Some k' -> keys h' !! p' = Some k') /\
    (forall l', l' <> l -> configs h' !! l' = configs h !! l').
Proof.
  intros HB.
  apply Build_success in HB as (l & c & o & k0 & n & e & -> & Hb & Hc & Hs & Hk & Hm & ->).
  split; [congruence |].
  exists l, c. eexists _, (fresh (dom (keys h))), _.
  split; [reflexivity |]. split; [exact Hc |].
  split; [apply installed_config |].
  split; [reflexivity |]. split; [reflexivity |]. split; [reflexivity |].
  split; [apply not_elem_of_dom, is_fresh |].
  split; [apply installed_key |].
  split; [intros p' k' Hp'; now apply installed_keeps_keys |].
  intros l' Hne. unfold installed. cbn. apply lookup_insert_ne. congruence.
Qed.

Lemma Build_success_frame_witness :
  Some 1%positive = config fresh_builder /\
  exists l c c' kp k,
    Some 1%positive = Some l /\ configs import_configured_heap !! l = Some c /\
    configs built_heap !! l = Some c' /\
    newPkOpts c' = newPkOpts c /\ importPkOpts c' = importPkOpts c /\
    key c' = Some kp /\ keys import_configured_heap !! kp = None /\
    keys built_heap !! kp = Some k /\
    (forall p' k', keys import_configured_heap !! p' = Some k' ->
                   keys built_heap !! p' = Some k') /\
    (forall l', l' <> l -> configs built_heap !! l' = configs import_configured_heap !! l').
Proof.
  apply (Build_success_frame fixture_env fresh_builder import_configured_heap built_heap).
  vm_compute. reflexivity.
Defined.

(** X8.  A handler keeps serving the key it was given: for a
    configuration value whose key cell holds a key, later setter calls on
    the builder and a later [Build], successful or not, in any
    environment, leave the result of the handler as it was. *)
Theorem Jkws_survives_rebuild
    (env : Env) (b : ConfigBuilder) (l : loc) (h : Heap) (c cfg : Config)
    (p : loc) (k : jwk.Key) (ss : list Setter) :
  config b = Some l ->
  configs h !! l = Some c ->
  key cfg = Some p ->
  keys h !! p = Some k ->
  exists h1 r h2,
    call_setters b ss h = Done tt h1 /\ Build env b h1 = Done r h2 /\
    keys h2 !! p = Some k /\
    forall ctx, result_of (Jkws cfg ctx h2) = result_of (Jkws cfg ctx h).
Proof.
  intros Hb Hc Hp Hk.
  destruct (setters_update_one_configuration_at b l h c ss Hb Hc)
    as (h1 & Hrun & Hc1 & _ & Hkeys & _).
  destruct (Build_returns env b h1 l _ Hb Hc1) as ([q err] & h2 & HB).
  assert (Hk2 : keys h2 !! p = Some k).
  { destruct err as [err |].
    - apply Build_inv in HB as [(err' & _ & ->) | HB].
      + rewrite Hkeys. exact Hk.
      + destruct HB as (? & ? & ? & ? & _ & _ & _ & _ & _ & [=] & _).
    - apply Build_success in HB as (l' & c' & o & k0 & n & e & _ & _ & _ & _ & _ & _ & ->).
      apply installed_keeps_keys. rewrite Hkeys. exact Hk. }
  exists h1, (q, err), h2. repeat (split; [assumption |]).
  intros ctx. apply (Jkws_depends_on_key_cell cfg ctx h2 h p Hp). congruence.
Qed.

Lemma Jkws_survives_rebuild_witness :
  exists h1 r h2,
    call_setters fresh_builder [CallImportWithKeyId "other"; CallWithPath "missing.pem"]
                 built_heap = Done tt h1 /\
    Build fixture_env fresh_builder h1 = Done r h2 /\
    keys h2 !! 1%positive = Some (with_metadata fixture_key "my-id") /\
    forall ctx, result_of (Jkws built_config ctx h2)
                = result_of (Jkws built_config ctx built_heap).
Proof.
  exact (Jkws_survives_rebuild fixture_env fresh_builder 1%positive built_heap
           built_config built_config 1%positive (with_metadata fixture_key "my-id")
           [CallImportWithKeyId "other"; CallWithPath "missing.pem"]
           eq_refl eq_refl eq_refl eq_refl).
Defined.

(* ===================================================================== *)
(** * Further properties: the handler and the programs                    *)
(* ===================================================================== *)

(** X9.  Every way the handler can end.  When it returns, the heap is
    unchanged, the key of the configuration is an RSA key, private or
    public, and the response is the 200 document of that key whatever
    the request was.  When it
    panics, either the key pointer is nil (or dangling) and the panic is
    a nil dereference, or the key is not an RSA key and the panic is the
    failed assertion of the exponent. *)
Theorem Jkws_outcomes (cfg : Config) (ctx : gin.Context) (h : Heap) :
  match Jkws cfg ctx h with
  | Done ctx' h' =>
      h' = h /\
      exists p k n e,
        key cfg = Some p /\ keys h !! p = Some k /\
        (jwk.material k = jwk.rsaPrivateKey n e \/ jwk.material k = jwk.rsaPublicKey n e) /\
        ctx' = gin.mkContext (gin.request ctx)
                 (Some (ok_response (jwks_entry n e (jwk.KeyUsage k) (jwk.KeyID k))))
  | Panic msg =>
      (msg = nil_dereference /\
       (key cfg = None \/ exists p, key cfg = Some p /\ keys h !! p = None))
      \/
      (msg = "interface conversion: interface {} is nil, not []uint8" /\
       exists p k t private,
         key cfg = Some p /\ keys h !! p = Some k /\
         jwk.material k = jwk.otherKey t private)
  end.
Proof.
  unfold Jkws. unfold_M.
  destruct (key cfg) as [p |] eqn:Hp; [| left; auto].
  destruct (keys h !! p) as [k |] eqn:Hk; [| left; eauto].
  unfold jwk.PublicKey, jwk.Get, jwk.KeyType. cbn.
  destruct (jwk.material k) as [n e | n e | t private] eqn:Hm; cbn.
  - split; [reflexivity |]. exists p, k, n, e. auto.
  - split; [reflexivity |]. exists p, k, n, e. auto.
  - right. split; [reflexivity |]. exists p, k, t, private. auto.
Qed.

(** X10.  The published parameters denote the generated key: when the
    generator yields a key with modulus [N] and exponent [E], [Build]
    succeeds, and the [n] and [e] of the entry the handler serves decode,
    as unpadded base64url, to byte sequences that read as big-endian
    numbers are [N] and [E] (their absolute values). *)
Theorem published_parameters_denote_generated_key
    (env : Env) (b : ConfigBuilder) (l : loc) (h : Heap) (c : Config)
    (o : NewKeyOptions) (raw : rsa.PrivateKey) :
  config b = Some l ->
  configs h !! l = Some c ->
  newPkOpts c = Some o -> importPkOpts c = None ->
  rsa_GenerateKey env (bits o) = inl raw ->
  exists h' c' res nb eb,
    Build env b h = Done (Some l, None) h' /\
    configs h' !! l = Some c' /\
    (forall ctx, Jkws c' ctx h' = Done (gin.JSON ctx 200 (jwks_document res)) h') /\
    base64.RawURLEncoding_DecodeString (PubKeyModulusKey res) = Some nb /\
    big.Int_SetBytes nb = Z.abs (rsa.N raw) /\
    base64.RawURLEncoding_DecodeString (PubKeyExponentKey res) = Some eb /\
    big.Int_SetBytes eb = Z.abs (rsa.E raw).
Proof.
  intros Hb Hc Hn Hi Hgen.
  set (k0 := jwk.mkKey (jwk.rsaPrivateKey (big.Int_Bytes (rsa.N raw))
                                          (big.Int_Bytes (rsa.E raw))) None None).
  assert (HB : Build env b h
               = Done (Some l, None) (installed h l c (with_metadata k0 (KeyId (NewOpts o))))).
  { apply (Build_succeeds env b h l c (NewOpts o) k0); try assumption; try reflexivity.
    - unfold selected. rewrite Hn, Hi. reflexivity.
    - cbn. unfold generatePrivateKey. rewrite Hgen. reflexivity. }
  eexists _, _, _, (big.Int_Bytes (rsa.N raw)), (big.Int_Bytes (rsa.E raw)).
  split; [exact HB |]. split; [apply installed_config |]. split.
  - intros ctx.
    apply (Jkws_installed h l c k0 (KeyId (NewOpts o)) (big.Int_Bytes (rsa.N raw))
             (big.Int_Bytes (rsa.E raw)) ctx).
    reflexivity.
  - cbn. repeat split;
      first [apply DecodeString_EncodeToString | apply Int_SetBytes_Int_Bytes].
Qed.

Lemma published_parameters_denote_generated_key_witness :
  exists h' c' res nb eb,
    Build fixture_env fresh_builder
      (heap_after (call_setters fresh_builder [CallWithKeyLength 2048]) fresh_builder_heap)
    = Done (Some 1%positive, None) h' /\
    configs h' !! 1%positive = Some c' /\
    (forall ctx, Jkws c' ctx h' = Done (gin.JSON ctx 200 (jwks_document res)) h') /\
    base64.RawURLEncoding_DecodeString (PubKeyModulusKey res) = Some nb /\
    big.Int_SetBytes nb = Z.abs (big.Int_SetBytes fixture_modulus) /\
    base64.RawURLEncoding_DecodeString (PubKeyExponentKey res) = Some eb /\
    big.Int_SetBytes eb = Z.abs 65537.
Proof.
  exact (published_parameters_denote_generated_key fixture_env fresh_builder 1%positive
           (heap_after (call_setters fresh_builder [CallWithKeyLength 2048]) fresh_builder_heap)
           (mkConfig None (Some (mkNewKeyOptions EmptyString 2048)) None)
           (mkNewKeyOptions EmptyString 2048)
           {| rsa.N := big.Int_SetBytes fixture_modulus; rsa.E := 65537 |}
           eq_refl eq_refl eq_refl eq_refl eq_refl).
Defined.

(** [Build] on a configuration with one source, by what the source
    yields. *)
Lemma Build_fails_on_source_error (env : Env) (b : ConfigBuilder) (l : loc) (h : Heap)
    (c : Config) (o : OptionsValue) :
  config b = Some l -> configs h !! l = Some c ->
  selected c = Some o ->
  (source_key env o = None \/
   exists k, source_key env o = Some k /\ jwk.is_RSAPrivateKey k = false) ->
  exists err, Build env b h = Done (None, Some err) h.
Proof.
  intros Hb Hc Hs Hsrc.
  destruct (Build_returns env b h l c Hb Hc) as ([p [err |]] & h' & HB).
  - exists err. apply Build_inv in HB as HB'.
    destruct HB' as [(err' & [= -> _] & ->) | (? & ? & ? & ? & _ & _ & _ & _ & _ & [=] & _)].
    exact HB.
  - exfalso.
    apply Build_inv in HB as [(err' & [=] & _) | HB].
    destruct HB as (l' & c' & o' & k0 & Hb' & Hc' & Hs' & Hk & Hrsa & _).
    assert (l' = l) as -> by congruence.
    assert (c' = c) as -> by congruence.
    assert (o' = o) as -> by congruence.
    destruct Hsrc as [Hnone | (k & Hk' & Hnot)]; congruence.
Qed.

Section Programs.

Context (env : Env) (h : Heap).

Local Abbreviation l0 := (fresh (dom (configs h))).
Local Abbreviation h0 := (mkHeap (<[l0 := mkConfig None None None]> (configs h)) (keys h)).

Lemma NewConfigBuilder_exactly :
  NewConfigBuilder h = Done (mkConfigBuilder (Some l0)) h0.
Proof. reflexivity. Qed.

Lemma h0_lookup : configs h0 !! l0 = Some (mkConfig None None None).
Proof. cbn. apply lookup_insert_eq. Qed.

(** The configuration of the generation example before [Build]. *)
Local Abbreviation c_new := (mkConfig None (Some (mkNewKeyOptions "my-id" 2048)) None).

(** The configuration of the import examples before [Build]. *)
Local Abbreviation c_import :=
  (mkConfig None None (Some (mkImportKeyOptions "my-id" "../testdata/private.pem"))).

Lemma main_new_private_key_unfolded :
  main_new_private_key env h
  = match Build env (mkConfigBuilder (Some l0)) (with_config h0 l0 c_new) with
    | Done (config, Some _) h' => Done None h'
    | Done (config, None) h' =>
        match load_config config h' with
        | Done c h'' =>
            Done (Some (Engine_GET gin_Default "/.well-known/jwks.json" (Jkws c))) h''
        | Panic msg => Panic msg
        end
    | Panic msg => Panic msg
    end.
Proof.
  unfold main_new_private_key, mbind, M_bind. rewrite NewConfigBuilder_exactly.
  rewrite (New_WithKeyId_exactly (mkConfigBuilder (Some l0)) l0 eq_refl "my-id" h0 _ h0_lookup).
  rewrite (WithKeyLength_exactly (mkConfigBuilder (Some l0)) l0 eq_refl 2048 _ _
             (with_config_lookup h0 l0 _)).
  rewrite with_config_twice. cbn [new_ConfigBuilder NewPrivateKey updated].
  destruct (Build env _ _) as [[config [err |]] h' |]; reflexivity.
Qed.

Lemma main_import_private_key_unfolded :
  main_import_private_key env h
  = match Build env (mkConfigBuilder (Some l0)) (with_config h0 l0 c_import) with
    | Done (config, Some _) h' => Done None h'
    | Done (config, None) h' =>
        match load_config config h' with
        | Done c h'' =>
            Done (Some (Engine_GET gin_Default "/.well-known/jwks.json" (Jkws c))) h''
        | Panic msg => Panic msg
        end
    | Panic msg => Panic msg
    end.
Proof.
  unfold main_import_private_key, mbind, M_bind. rewrite NewConfigBuilder_exactly.
  rewrite (WithPath_exactly (mkConfigBuilder (Some l0)) l0 eq_refl _ h0 _ h0_lookup).
  rewrite (Import_WithKeyId_exactly (mkConfigBuilder (Some l0)) l0 eq_refl "my-id" _ _
             (with_config_lookup h0 l0 _)).
  rewrite with_config_twice. cbn [import_ConfigBuilder ImportPrivateKey updated].
  destruct (Build env _ _) as [[config [err |]] h' |]; reflexivity.
Qed.

Lemma readme_import_snippet_unfolded :
  readme_import_snippet env h
  = match Build env (mkConfigBuilder (Some l0)) (with_config h0 l0 c_import) with
    | Done (config, _) h' =>
        match load_config config h' with
        | Done c h'' => Done (Some (Engine_GET gin_Default "/" (Jkws c))) h''
        | Panic msg => Panic msg
        end
    | Panic msg => Panic msg
    end.
Proof.
  unfold readme_import_snippet, mbind, M_bind. rewrite NewConfigBuilder_exactly.
  rewrite (WithPath_exactly (mkConfigBuilder (Some l0)) l0 eq_refl _ h0 _ h0_lookup).
  rewrite (Import_WithKeyId_exactly (mkConfigBuilder (Some l0)) l0 eq_refl "my-id" _ _
             (with_config_lookup h0 l0 _)).
  rewrite with_config_twice. cbn [import_ConfigBuilder ImportPrivateKey updated].
  destruct (Build env _ _) as [[config err] h' |]; reflexivity.
Qed.

(** The import source fails exactly when the file does not hold an RSA
    private key. *)
Lemma import_source_fails (o : ImportKeyOptions) :
  ~ (exists keyData k,
       ioutil_ReadFile env (privateKeyPemPath o) = inl keyData /\
       jwk_ParseKey_WithPEM env keyData = inl k /\
       jwk.is_RSAPrivateKey k = true) ->
  source_key env (ImportOpts o) = None \/
  exists k, source_key env (ImportOpts o) = Some k /\ jwk.is_RSAPrivateKey k = false.
Proof.
  intros Hno. cbn. unfold importPrivateKey.
  destruct (ioutil_ReadFile env (privateKeyPemPath o)) as [keyData | err]; [| left; reflexivity].
  destruct (jwk_ParseKey_WithPEM env keyData) as [k | err] eqn:Hparse; [| left; reflexivity].
  right. exists k. split; [reflexivity |].
  destruct (jwk.is_RSAPrivateKey k) eqn:Hrsa; [| reflexivity].
  exfalso. apply Hno. eauto.
Qed.

(** X11.  The generation example, in every environment and from every
    heap: when the generator fails, [main] returns before [r.Run()],
    without a route and without a panic; when it yields a key, [main]
    reaches [r.Run()] with a single route, GET on the well-known path,
    whose handler answers every request with the 200 document of that
    key under the key id my-id. *)
Theorem main_new_private_key_serves_generated_key :
  (forall err,
     rsa_GenerateKey env 2048 = inr err ->
     exists h1, main_new_private_key env h = Done None h1 /\ keys h1 = keys h)
  /\
  (forall raw,
     rsa_GenerateKey env 2048 = inl raw ->
     exists h1 handler,
       main_new_private_key env h
       = Done (Some [mkRoute "GET" "/.well-known/jwks.json" handler]) h1 /\
       forall ctx,
         handler ctx h1
         = Done (gin.mkContext (gin.request ctx)
                   (Some (ok_response (jwks_entry (big.Int_Bytes (rsa.N raw))
                                                  (big.Int_Bytes (rsa.E raw))
                                                  "sig" "my-id")))) h1).
Proof.
  split.
  - intros err Hgen. rewrite main_new_private_key_unfolded.
    rewrite (Build_generation_error env (mkConfigBuilder (Some l0)) l0
               (with_config h0 l0 c_new) c_new (mkNewKeyOptions "my-id" 2048)
               eq_refl (with_config_lookup h0 l0 _) eq_refl eq_refl err Hgen).
    eexists. split; reflexivity.
  - intros raw Hgen. rewrite main_new_private_key_unfolded.
    rewrite (Build_generation_ok env (mkConfigBuilder (Some l0)) l0
               (with_config h0 l0 c_new) c_new (mkNewKeyOptions "my-id" 2048)
               eq_refl (with_config_lookup h0 l0 _) eq_refl eq_refl raw Hgen).
    unfold load_config. rewrite installed_config.
    eexists _, _. split; [reflexivity |].
    intros ctx.
    apply (Jkws_installed (with_config h0 l0 c_new) l0 c_new
             (jwk.mkKey (jwk.rsaPrivateKey (big.Int_Bytes (rsa.N raw))
                                           (big.Int_Bytes (rsa.E raw))) None None)
             "my-id" _ _ ctx).
    reflexivity.
Qed.

(** X12.  The import example, in every environment and from every heap:
    [main] reaches [r.Run()] exactly when the file at the path of the
    example holds an RSA private key, and then its single route serves
    the 200 document of that key under the key id my-id; in every other
    case (unreadable file, unparsable content, a key of another type) it
    returns before [r.Run()], without a route and without a panic. *)
Theorem main_import_private_key_serves_imported_key :
  (forall keyData k n e,
     ioutil_ReadFile env "../testdata/private.pem" = inl keyData ->
     jwk_ParseKey_WithPEM env keyData = inl k ->
     jwk.material k = jwk.rsaPrivateKey n e ->
     exists h1 handler,
       main_import_private_key env h
       = Done (Some [mkRoute "GET" "/.well-known/jwks.json" handler]) h1 /\
       forall ctx,
         handler ctx h1
         = Done (gin.mkContext (gin.request ctx)
                   (Some (ok_response (jwks_entry n e "sig" "my-id")))) h1)
  /\
  (~ (exists keyData k,
        ioutil_ReadFile env "../testdata/private.pem" = inl keyData /\
        jwk_ParseKey_WithPEM env keyData = inl k /\
        jwk.is_RSAPrivateKey k = true) ->
   exists h1, main_import_private_key env h = Done None h1 /\ keys h1 = keys h).
Proof.
  split.
  - intros keyData k n e Hread Hparse Hm.
    rewrite main_import_private_key_unfolded.
    rewrite (Build_succeeds env (mkConfigBuilder (Some l0)) (with_config h0 l0 c_import)
               l0 c_import (ImportOpts (mkImportKeyOptions "my-id" "../testdata/private.pem"))
               k eq_refl (with_config_lookup h0 l0 _) eq_refl).
    + unfold load_config. rewrite installed_config.
      eexists _, _. split; [reflexivity |].
      intros ctx.
      apply (Jkws_installed (with_config h0 l0 c_import) l0 c_import k "my-id" n e ctx Hm).
    + cbn. unfold importPrivateKey. cbn. rewrite Hread, Hparse. reflexivity.
    + unfold jwk.is_RSAPrivateKey. rewrite Hm. reflexivity.
  - intros Hno.
    rewrite main_import_private_key_unfolded.
    destruct (Build_fails_on_source_error env (mkConfigBuilder (Some l0)) l0
                (with_config h0 l0 c_import) c_import
                (ImportOpts (mkImportKeyOptions "my-id" "../testdata/private.pem"))
                eq_refl (with_config_lookup h0 l0 _) eq_refl
                (import_source_fails (mkImportKeyOptions "my-id" "../testdata/private.pem") Hno)) as [err ->].
    eexists. split; reflexivity.
Qed.

(** X13.  The import snippet of the README has no [return] after its
    error check: whenever the file at its path does not hold an RSA
    private key, [Build] returns a nil configuration and the snippet
    panics with a nil dereference where it copies the configuration for
    the handler, instead of ending as the example programs do. *)
Theorem readme_import_snippet_panics_on_failure :
  ~ (exists keyData k,
       ioutil_ReadFile env "../testdata/private.pem" = inl keyData /\
       jwk_ParseKey_WithPEM env keyData = inl k /\
       jwk.is_RSAPrivateKey k = true) ->
  readme_import_snippet env h = Panic nil_dereference.
Proof.
  intros Hno.
  rewrite readme_import_snippet_unfolded.
  destruct (Build_fails_on_source_error env (mkConfigBuilder (Some l0)) l0
              (with_config h0 l0 c_import) c_import
              (ImportOpts (mkImportKeyOptions "my-id" "../testdata/private.pem"))
              eq_refl (with_config_lookup h0 l0 _) eq_refl
              (import_source_fails (mkImportKeyOptions "my-id" "../testdata/private.pem") Hno)) as [err ->].
  reflexivity.
Qed.

End Programs.

Lemma main_new_private_key_serves_generated_key_witness :
  exists h1 handler,
    main_new_private_key fixture_env empty_heap
    = Done (Some [mkRoute "GET" "/.well-known/jwks.json" handler]) h1 /\
    forall ctx,
      handler ctx h1
      = Done (gin.mkContext (gin.request ctx)
                (Some (ok_response (jwks_entry (big.Int_Bytes (big.Int_SetBytes fixture_modulus))
                                               (big.Int_Bytes 65537)
                                               "sig" "my-id")))) h1.
Proof.
  exact (proj2 (main_new_private_key_serves_generated_key fixture_env empty_heap)
           {| rsa.N := big.Int_SetBytes fixture_modulus; rsa.E := 65537 |} eq_refl).
Defined.

Lemma main_import_private_key_serves_imported_key_witness :
  exists h1 handler,
    main_import_private_key fixture_env empty_heap
    = Done (Some [mkRoute "GET" "/.well-known/jwks.json" handler]) h1 /\
    forall ctx,
      handler ctx h1
      = Done (gin.mkContext (gin.request ctx)
                (Some (ok_response (jwks_entry fixture_modulus [x01; x00; x01]
                                               "sig" "my-id")))) h1.
Proof.
  exact (proj1 (main_import_private_key_serves_imported_key fixture_env empty_heap)
           (bytes_of_string "RSA PRIVATE KEY") fixture_key fixture_modulus [x01; x00; x01]
           eq_refl eq_refl eq_refl).
Defined.

Lemma readme_import_snippet_panics_on_failure_witness :
  readme_import_snippet
    (mkEnv (fun _ => inr "open ../testdata/private.pem: no such file or directory")
           (rsa_GenerateKey fixture_env) (jwk_ParseKey_WithPEM fixture_env))
    empty_heap
  = Panic nil_dereference.
Proof.
  apply readme_import_snippet_panics_on_failure.
  intros (keyData & k & Hread & _). discriminate Hread.
Defined.

(* ===================================================================== *)
(** * Further properties: the published strings                           *)
(* ===================================================================== *)

Section PublishedStrings.

Lemma alphabet_url_safe_checked : forallb encode_url_safe (seq 0 64) = true.
Proof. vm_compute. reflexivity. Qed.

Lemma encode_url_safe_at (v : Z) : 0 <= v < 64 -> url_safe (base64.encode v) = true.
Proof.
  intros Hv. pose proof alphabet_url_safe_checked as H.
  rewrite forallb_forall in H. specialize (H (Z.to_nat v)).
  unfold encode_url_safe in H. rewrite Z2Nat.id in H by lia.
  apply H. apply in_seq. lia.
Qed.

Lemma Encode_url_safe (src : bytes) :
  string_forallb url_safe (base64.Encode src) = true.
Proof.
  induction src as [| s0 | s0 s1 | s0 s1 s2 rest IH] using list_ind3;
    cbn [base64.Encode string_forallb];
    rewrite ?encode_url_safe_at by apply sextet_range;
    [reflexivity | reflexivity | reflexivity | exact IH].
Qed.

Lemma Encode_length (src : bytes) :
  String.length (base64.Encode src) = ((4 * List.length src + 2) / 3)%nat.
Proof.
  induction src as [| s0 | s0 s1 | s0 s1 s2 rest IH] using list_ind3;
    [reflexivity | reflexivity | reflexivity |].
  cbn [base64.Encode String.length List.length]. rewrite IH.
  replace (4 * S (S (S (List.length rest))) + 2)%nat
    with ((4 * List.length rest + 2) + 4 * 3)%nat by lia.
  rewrite Nat.div_add by lia. lia.
Qed.

(** The scan of an ASCII byte. *)
Lemma escape_all_ascii (c : ascii) (s : string) :
  (nat_of_ascii c <? 128)%nat = true ->
  json.escape_all (String c s) = (json.escape c ++ json.escape_all s)%string.
Proof.
  intros H. cbn [json.escape_all]. rewrite H. reflexivity.
Qed.

(** A plain character is an ASCII byte that is written as it is. *)
Lemma escape_plain (c : ascii) :
  json_plain c = true ->
  (nat_of_ascii c <? 128)%nat = true /\ json.escape c = String c EmptyString.
Proof.
  destruct c as [[] [] [] [] [] [] [] []]; intros H;
    first [discriminate H | split; reflexivity].
Qed.

Lemma url_safe_plain (c : ascii) : url_safe c = true -> json_plain c = true.
Proof.
  destruct c as [[] [] [] [] [] [] [] []]; intros H;
    first [discriminate H | reflexivity].
Qed.

Lemma escape_all_plain (s : string) :
  string_forallb json_plain s = true -> json.escape_all s = s.
Proof.
  induction s as [| c s IH]; [reflexivity |].
  cbn [string_forallb]. intros [Hc Hs]%andb_true_iff.
  destruct (escape_plain c Hc) as [Hascii Hesc].
  rewrite (escape_all_ascii c s Hascii), Hesc, (IH Hs). reflexivity.
Qed.

Lemma escape_all_url_safe (s : string) :
  string_forallb url_safe s = true -> json.escape_all s = s.
Proof.
  intros H. apply escape_all_plain.
  induction s as [| c s IH]; [reflexivity |].
  cbn [string_forallb] in H |- *. apply andb_true_iff in H as [Hc Hs].
  rewrite (url_safe_plain c Hc), (IH Hs). reflexivity.
Qed.

Lemma append_assoc' (a b c : string) : ((a ++ b) ++ c = a ++ (b ++ c))%string.
Proof.
  induction a as [| x a IH]; [reflexivity |].
  change (String x ((a ++ b) ++ c) = String x (a ++ (b ++ c)))%string.
  rewrite IH. reflexivity.
Qed.

End PublishedStrings.

(** X14.  [EncodeToString] writes one character for every six bits,
    rounded up, and no padding: its output has [(4 * len + 2) / 3]
    characters, all from the URL-safe alphabet (letters, digits, [-] and
    [_]), so it never contains [=], [+] or [/]; the empty input gives the
    empty string. *)
Theorem EncodeToString_length_and_alphabet (src : bytes) :
  String.length (EncodeToString src) = ((4 * List.length src + 2) / 3)%nat /\
  string_forallb url_safe (EncodeToString src) = true /\
  string_forallb (fun c => negb (Ascii.eqb c "=" || Ascii.eqb c "+" || Ascii.eqb c "/"))
                 (EncodeToString src) = true.
Proof.
  split; [apply Encode_length |]. split; [apply Encode_url_safe |].
  unfold EncodeToString, base64.RawURLEncoding_EncodeToString.
  pose proof (Encode_url_safe src) as H.
  induction (base64.Encode src) as [| c s IH]; [reflexivity |].
  cbn [string_forallb] in H |- *. apply andb_true_iff in H as [Hc Hs].
  rewrite (IH Hs), andb_true_r.
  destruct c as [[] [] [] [] [] [] [] []]; first [discriminate Hc | reflexivity].
Qed.

(** X15.  [EncodeToString] is injective: two byte sequences with the same
    published form are equal, so distinct moduli are never published
    under the same [n]. *)
Theorem EncodeToString_injective (a b : bytes) :
  EncodeToString a = EncodeToString b -> a = b.
Proof.
  intros H.
  pose proof (DecodeString_EncodeToString a) as Ha.
  pose proof (DecodeString_EncodeToString b) as Hb'.
  unfold EncodeToString in H. rewrite H in Ha. congruence.
Qed.

Lemma EncodeToString_injective_witness :
  [x01; x00; x01] = [x01; x00; x01].
Proof.
  exact (EncodeToString_injective [x01; x00; x01] [x01; x00; x01] eq_refl).
Defined.

(** The body of the 200 response, as a text. *)
Lemma ok_response_body (n e : bytes) (use kid : string) :
  gin.Body (ok_response (jwks_entry n e use kid))
  = (json_text "{'keys':[{'kty':'RSA','alg':'RS256','e':'" ++ EncodeToString e
     ++ json_text "','n':'" ++ EncodeToString n
     ++ json_text "','use':'" ++ json.escape_all use
     ++ json_text "','kid':'" ++ json.escape_all kid
     ++ json_text "'}]}")%string.
Proof.
  unfold ok_response, jwks_document, JkwsResponse_json, jwks_entry. cbn [gin.Body].
  cbn [json.Marshal List.map fst snd json.commas String.concat
       KeyTypeKey AlgorithmKey PubKeyExponentKey PubKeyModulusKey KeyUsageKey KeyIDKey].
  unfold json.encode_string.
  rewrite (escape_all_url_safe (EncodeToString e)) by apply Encode_url_safe.
  rewrite (escape_all_url_safe (EncodeToString n)) by apply Encode_url_safe.
  repeat rewrite append_assoc'. reflexivity.
Qed.

(** X16.  What the handler writes for a configuration that [Build]
    returned, when the key id consists of printable ASCII characters
    other than the quote, the backslash and [<], [>], [&]: status 200,
    the JSON content type, and as body the compact text with the members
    in the order kty, alg, e, n, use, kid, in which the encoded exponent
    and modulus and the key id stand as they are. *)
Theorem Jkws_body_text
    (env : Env) (b : ConfigBuilder) (h h' : Heap) (l : loc) (c : Config) :
  Build env b h = Done (Some l, None) h' ->
  configs h' !! l = Some c ->
  exists c0 o k0 n e,
    configs h !! l = Some c0 /\ selected c0 = Some o /\
    source_key env o = Some k0 /\ jwk.material k0 = jwk.rsaPrivateKey n e /\
    (string_forallb json_plain (KeyId o) = true ->
     forall ctx,
       Jkws c ctx h'
       = Done (gin.mkContext (gin.request ctx)
                 (Some {| gin.Status := 200;
                          gin.ContentType := "application/json; charset=utf-8";
                          gin.Body :=
                            (json_text "{'keys':[{'kty':'RSA','alg':'RS256','e':'"
                             ++ EncodeToString e
                             ++ json_text "','n':'" ++ EncodeToString n
                             ++ json_text "','use':'sig','kid':'" ++ KeyId o
                             ++ json_text "'}]}")%string |})) h').
Proof.
  intros HB Hc.
  apply Build_success in HB as (l' & c0 & o & k0 & n & e & [= <-] & Hb & Hc0 & Hs & Hk & Hm & ->).
  rewrite installed_config in Hc. injection Hc as <-.
  exists c0, o, k0, n, e. repeat (split; [assumption |]).
  intros Hplain ctx.
  rewrite (Jkws_installed h l c0 k0 (KeyId o) n e ctx Hm).
  do 3 f_equal. unfold ok_response at 1. f_equal.
  change (json.Marshal (json.Obj (jwks_document (jwks_entry n e KeyUsageAsSignature (KeyId o)))))
    with (gin.Body (ok_response (jwks_entry n e KeyUsageAsSignature (KeyId o)))).
  rewrite ok_response_body, (escape_all_plain (KeyId o) Hplain).
  repeat rewrite append_assoc'. reflexivity.
Qed.

Lemma Jkws_body_text_witness :
  Jkws built_config fixture_request built_heap
  = Done (gin.mkContext (gin.request fixture_request)
            (Some {| gin.Status := 200;
                     gin.ContentType := "application/json; charset=utf-8";
                     gin.Body :=
                       (json_text "{'keys':[{'kty':'RSA','alg':'RS256','e':'"
                        ++ EncodeToString [x01; x00; x01]
                        ++ json_text "','n':'" ++ EncodeToString fixture_modulus
                        ++ json_text "','use':'sig','kid':'" ++ "my-id"
                        ++ json_text "'}]}")%string |})) built_heap.
Proof.
  destruct (Jkws_body_text fixture_env fresh_builder import_configured_heap built_heap
              1%positive built_config)
    as (c0 & o & k0 & n & e & Hc0 & Hs & Hk & Hm & Hbody).
  - vm_compute. reflexivity.
  - vm_compute. reflexivity.
  - vm_compute in Hc0. injection Hc0 as <-.
    vm_compute in Hs. injection Hs as <-.
    vm_compute in Hk. injection Hk as <-.
    vm_compute in Hm. injection Hm as <- <-.
    exact (Hbody eq_refl fixture_request).
Defined.

(* ===================================================================== *)
(** * Examples                                                            *)
(* ===================================================================== *)

Example encode_AQAB : EncodeToString [x01; x00; x01] = "AQAB".
Proof. reflexivity. Qed.

Example encode_fixture_modulus : EncodeToString fixture_modulus = fixture_modulus_b64url.
Proof. vm_compute. reflexivity. Qed.

Example decode_rejects_padding :
  base64.RawURLEncoding_DecodeString "AQAB=" = None.
Proof. reflexivity. Qed.

Example marshal_line_separator :
  json.Marshal (json.Str (string_of_list_byte [xe2; x80; xa8; x61]))
  = json_text "'\u2028a'".
Proof. reflexivity. Qed.

Example marshal_invalid_bytes :
  json.Marshal (json.Str (string_of_list_byte [x61; xff; xc3; xed; xa0; x80]))
  = json_text "'a\ufffd\ufffd\ufffd\ufffd\ufffd'".
Proof. reflexivity. Qed.

Example marshal_copies_valid_sequences :
  json.Marshal (json.Str (string_of_list_byte [xc3; xa9; xe2; x82; xac; xf0; x9f; x98; x80]))
  = (json.quote ++ string_of_list_byte [xc3; xa9; xe2; x82; xac; xf0; x9f; x98; x80]
     ++ json.quote)%string.
Proof. reflexivity. Qed.

Example marshal_controls :
  json.Marshal (json.Str (string_of_list_byte [x08; x0c; x0a; x0d; x09; x01; x7f]))
  = (json.quote ++ "\b\f\n\r\t\u0001" ++ string_of_list_byte [x7f] ++ json.quote)%string.
Proof. reflexivity. Qed.

Example marshal_escapes :
  json.Marshal (json.Str "a<b\c") = json_text "'a\u003cb\\c'".
Proof. reflexivity. Qed.

(** The generation example without [WithKeyId] serves an empty [kid]. *)
Example generation_without_key_id_serves_empty_kid :
  result_of (example_generate_without_key_id empty_heap)
  = Some (None,
          Some (gin.mkContext (gin.request fixture_request)
                  (Some {| gin.Status := 200;
                           gin.ContentType := "application/json; charset=utf-8";
                           gin.Body :=
                             json_text ("{'keys':[{'kty':'RSA','alg':'RS256','e':'AQAB','n':'"
                                        ++ fixture_modulus_b64url
                                        ++ "','use':'sig','kid':''}]}") |}))).
Proof. vm_compute. reflexivity. Qed.

(** Importing a key that is not an RSA private key ends at the type
    assertion of [Build]. *)
Example import_of_ec_key_is_rejected :
  result_of (example_import "../testdata/ec.pem" "my-id" empty_heap)
  = Some (Some "expected jwk.SymmetricKey, got *jwk.ecdsaPrivateKey", None).
Proof. vm_compute. reflexivity. Qed.
